(** * check_domain_expiry: a shallow embedding of python_rdap_script_domain_expiry.py

    The script is a monitoring probe: it looks up the expiration date of a
    domain (local cache first, RDAP service otherwise), parses it, computes
    the number of days left and exits with a Nagios state.

    Modelling conventions.
    - Python [str] values are Rocq strings; a character is a code point
      below 256.
    - Python [float] values are the rationals they stand for ([Q]); the
      binary64 rounding of [+], [-] and [/] is not modelled, and a property
      that depends on a fraction of a second is stated only where the
      rounding cannot change the result.
    - The file system is what the script can observe of it: what each path
      leads to (a file that reads as text, or something that exists but
      cannot be read as text), which path strings lead to the same file,
      and whether the cache directory can be made and a file opened and
      written.  A file that the script has written reads back as text,
      nothing else changes the file system during a run, and the platform
      is POSIX (path separator, no newline translation on write).
    - Standard output takes every message.
    - Command-line parsing ([argparse]) is outside the model: [main] starts
      from the parsed arguments. *)

From Stdlib Require Import ZArith QArith Ascii String DecimalString DecimalZ
  List Lia.
From stdpp Require Import base option strings gmap.
Import ListNotations.

Local Open Scope string_scope.
Local Open Scope Z_scope.

(** ** Python strings *)

Module Py.

Definition ord (c : ascii) : Z := Z.of_N (N_of_ascii c).

Definition LF : ascii := ascii_of_N 10.
Definition CR : ascii := ascii_of_N 13.

(** [str.isspace] on one character, for code points below 256. *)
Definition isspace (c : ascii) : bool :=
  let n := ord c in
  ((9 <=? n) && (n <=? 13)) || ((28 <=? n) && (n <=? 32))
  || (n =? 133) || (n =? 160).

Definition isdigit (c : ascii) : bool :=
  let n := ord c in (48 <=? n) && (n <=? 57).

Definition in_range (lo hi : ascii) (c : ascii) : bool :=
  (ord lo <=? ord c) && (ord c <=? ord hi).

Definition is_char (x : ascii) (c : ascii) : bool := ord x =? ord c.

Definition is_empty (s : string) : bool :=
  match s with EmptyString => true | String _ _ => false end.

Fixpoint lstrip (s : string) : string :=
  match s with
  | EmptyString => EmptyString
  | String c r => if isspace c then lstrip r else s
  end.

Fixpoint rstrip (s : string) : string :=
  match s with
  | EmptyString => EmptyString
  | String c r =>
      let r' := rstrip r in
      if is_empty r' && isspace c then EmptyString else String c r'
  end.

(** [str.strip()] with no argument. *)
Definition strip (s : string) : string := rstrip (lstrip s).

(** What [f.read()] returns for a file opened in text mode with the default
    [newline=None]: the sequences CR LF and CR alone are read as LF. *)
Fixpoint universal_newlines (s : string) : string :=
  match s with
  | EmptyString => EmptyString
  | String c r =>
      if is_char CR c then
        match r with
        | String c' r' =>
            if is_char LF c' then String LF (universal_newlines r')
            else String LF (universal_newlines r)
        | EmptyString => String LF EmptyString
        end
      else String c (universal_newlines r)
  end.

(** [str(n)] for an [int]: its decimal numeral, with a minus sign below
    zero. *)
Definition str_of_int (n : Z) : string :=
  NilEmpty.string_of_int (Z.to_int n).

(** [int(s)] for a string of decimal digits with optional surrounding
    whitespace, as [_strptime] applies it to the text of a group. *)
Fixpoint int_of_digits (acc : Z) (s : string) : Z :=
  match s with
  | EmptyString => acc
  | String c r => int_of_digits (10 * acc + (ord c - 48)) r
  end.

Definition int_of_str (s : string) : Z := int_of_digits 0 (strip s).

(** [int(x)] for a float: truncation toward zero. *)
Definition int_of_float (x : Q) : Z := Z.quot (Qnum x) (Zpos (Qden x)).

Definition float_lt (x y : Q) : bool := negb (Qle_bool y x).

End Py.

(** ** The datetime library: [strptime] and [timestamp] *)

Module Datetime.

(** A naive [datetime] object ([tzinfo] is [None], [fold] is 0). *)
Record datetime := mkDatetime {
  year : Z; month : Z; day : Z;
  hour : Z; minute : Z; second : Z; microsecond : Z
}.

Definition is_leap (y : Z) : bool :=
  (y mod 4 =? 0) && (negb (y mod 100 =? 0) || (y mod 400 =? 0)).

Definition days_in_month (y m : Z) : Z :=
  if m =? 2 then (if is_leap y then 29 else 28)
  else if (m =? 4) || (m =? 6) || (m =? 9) || (m =? 11) then 30
  else 31.

Definition days_before_year (y : Z) : Z :=
  let y' := y - 1 in y' * 365 + y' / 4 - y' / 100 + y' / 400.

Fixpoint days_before_month_aux (y : Z) (n : nat) : Z :=
  match n with
  | O => 0
  | S n' => days_before_month_aux y n' + days_in_month y (Z.of_nat n)
  end.

(** Number of days of year [y] before the first day of month [m]. *)
Definition days_before_month (y m : Z) : Z :=
  days_before_month_aux y (Z.to_nat (m - 1)).

(** Proleptic Gregorian ordinal: 0001-01-01 is day 1. *)
Definition ymd_to_ord (y m d : Z) : Z :=
  days_before_year y + days_before_month y m + d.

Definition MINYEAR : Z := 1.
Definition MAXYEAR : Z := 9999.

(** Seconds since 0001-01-01T00:00:00 minus one day, as the C helper of
    the same name computes them. *)
Definition utc_to_seconds (y m d hh mm ss : Z) : Z :=
  ((ymd_to_ord y m d * 24 + hh) * 60 + mm) * 60 + ss.

Definition epoch : Z := 719163 * 24 * 3600.

(** *** Format directives

    [_strptime] turns the format into a regular expression, one group per
    directive, compiled with [re.IGNORECASE].  A directive's expression is
    an ordered list of alternatives, each a sequence of character classes:
<<
      %Y  \d\d\d\d
      %m  1[0-2]|0[1-9]|[1-9]
      %d  3[0-1]|[1-2]\d|0[1-9]|[1-9]| [1-9]
      %H  2[0-3]|[0-1]\d|\d
      %M  [0-5]\d|\d
      %S  6[0-1]|[0-5]\d|\d
      %f  [0-9]{1,6}
>> *)
Inductive directive := dY | dm | dd | dH | dM | dS | df.

Definition directive_eqb (a b : directive) : bool :=
  match a, b with
  | dY, dY | dm, dm | dd, dd | dH, dH | dM, dM | dS, dS | df, df => true
  | _, _ => false
  end.

Definition cls := ascii -> bool.

Definition directive_regex (d : directive) : list (list cls) :=
  let dg := Py.isdigit in
  let r := Py.in_range in
  let c := Py.is_char in
  match d with
  | dY => [[dg; dg; dg; dg]]
  | dm => [[c "1"; r "0" "2"]; [c "0"; r "1" "9"]; [r "1" "9"]]
  | dd => [[c "3"; r "0" "1"]; [r "1" "2"; dg]; [c "0"; r "1" "9"];
           [r "1" "9"]; [c " "; r "1" "9"]]
  | dH => [[c "2"; r "0" "3"]; [r "0" "1"; dg]; [dg]]
  | dM => [[r "0" "5"; dg]; [dg]]
  | dS => [[c "6"; r "0" "1"]; [r "0" "5"; dg]; [dg]]
  | df => [[dg; dg; dg; dg; dg; dg]; [dg; dg; dg; dg; dg]; [dg; dg; dg; dg];
           [dg; dg; dg]; [dg; dg]; [dg]]
  end%char.

Inductive item := Lit (c : ascii) | Dir (d : directive).

Definition directive_of_char (c : ascii) : option directive :=
  if Py.is_char "Y" c then Some dY else
  if Py.is_char "m" c then Some dm else
  if Py.is_char "d" c then Some dd else
  if Py.is_char "H" c then Some dH else
  if Py.is_char "M" c then Some dM else
  if Py.is_char "S" c then Some dS else
  if Py.is_char "f" c then Some df else None.

(** The items of a format string; [None] for a directive other than the
    seven above (none occurs in this program). *)
Fixpoint compile_format (fmt : string) : option (list item) :=
  match fmt with
  | EmptyString => Some []
  | String c r =>
      if Py.is_char "%" c then
        match r with
        | String c' r' =>
            match directive_of_char c', compile_format r' with
            | Some d, Some its => Some (Dir d :: its)
            | _, _ => None
            end
        | EmptyString => None
        end
      else
        match compile_format r with
        | Some its => Some (Lit c :: its)
        | None => None
        end
  end.

Definition lower (c : ascii) : Z :=
  let n := Py.ord c in if (65 <=? n) && (n <=? 90) then n + 32 else n.

(** A literal of the format matches a character up to case. *)
Definition lit_matches (c x : ascii) : bool := lower c =? lower x.

(** One alternative against the head of the input: the text it consumes
    and the rest. *)
Fixpoint match_alt (a : list cls) (s : string) : option (string * string) :=
  match a with
  | [] => Some (EmptyString, s)
  | p :: a' =>
      match s with
      | String x s' =>
          if p x then
            match match_alt a' s' with
            | Some (txt, rest) => Some (String x txt, rest)
            | None => None
            end
          else None
      | EmptyString => None
      end
  end.

Definition match_directive (d : directive) (s : string)
  : list (string * string) :=
  omap (fun a => match_alt a s) (directive_regex d).

(** All the ways the items match a prefix of the input, in the order a
    backtracking matcher finds them: the groups and the unmatched rest. *)
Fixpoint match_items (its : list item) (s : string)
  : list (list (directive * string) * string) :=
  match its with
  | [] => [([], s)]
  | Lit c :: its' =>
      match s with
      | String x s' => if lit_matches c x then match_items its' s' else []
      | EmptyString => []
      end
  | Dir d :: its' =>
      flat_map
        (fun '(txt, rest) =>
           map (fun '(groups, r) => ((d, txt) :: groups, r))
               (match_items its' rest))
        (match_directive d s)
  end.

Fixpoint group (d : directive) (groups : list (directive * string))
  : option string :=
  match groups with
  | [] => None
  | (d', txt) :: gs => if directive_eqb d d' then Some txt else group d gs
  end.

Definition group_int (d : directive) (dflt : Z)
    (groups : list (directive * string)) : Z :=
  match group d groups with
  | Some txt => Py.int_of_str txt
  | None => dflt
  end.

Fixpoint pad_zeros (n : nat) (s : string) : string :=
  match n, s with
  | O, _ => EmptyString
  | S n', EmptyString => String "0" (pad_zeros n' EmptyString)
  | S n', String c r => String c (pad_zeros n' r)
  end.

(** The fraction group, right-padded with zeros to six digits. *)
Definition group_fraction (groups : list (directive * string)) : Z :=
  match group df groups with
  | Some txt => Py.int_of_str (pad_zeros 6 txt)
  | None => 0
  end.

(** [datetime.strptime(data_string, format)]; [None] stands for
    [ValueError] (no match, unconverted data, or a field out of range). *)
Definition strptime (data_string format : string) : option datetime :=
  match compile_format format with
  | None => None
  | Some its =>
      match match_items its data_string with
      | (groups, EmptyString) :: _ =>
          let y := group_int dY 1900 groups in
          let m := group_int dm 1 groups in
          let d := group_int dd 1 groups in
          let hh := group_int dH 0 groups in
          let mm := group_int dM 0 groups in
          let ss := group_int dS 0 groups in
          let us := group_fraction groups in
          if (MINYEAR <=? y) && (y <=? MAXYEAR)
             && (1 <=? m) && (m <=? 12)
             && (1 <=? d) && (d <=? days_in_month y m)
             && (ss <=? 59)
          then Some (mkDatetime y m d hh mm ss us)
          else None
      | _ => None
      end
  end.

(** *** Local time

    [localtime] is the process's time zone: the offset from UTC, in
    seconds, in force at a given POSIX time. *)
Definition timezone := Z -> Z.

Definition UTC : timezone := fun _ => 0.
Definition fixed_offset (seconds : Z) : timezone := fun _ => seconds.

Definition min_seconds : Z := utc_to_seconds MINYEAR 1 1 0 0 0.
Definition max_seconds : Z := utc_to_seconds MAXYEAR 12 31 23 59 59.

(** [local(u)]: the local wall-clock reading at POSIX time [u - epoch], on
    the scale of [utc_to_seconds]; [None] is the [ValueError] raised when
    the local year leaves [MINYEAR..MAXYEAR]. *)
Definition local (tz : timezone) (u : Z) : option Z :=
  let t := u - epoch in
  let l := u + tz t in
  if (min_seconds <=? l) && (l <=? max_seconds) then Some l else None.

Definition max_fold_seconds : Z := 24 * 3600.

(** [local_to_seconds] with [fold = 0]: solve [t = local(u)] for [u]. *)
Definition local_to_seconds (tz : timezone) (dt : datetime) : option Z :=
  let t := utc_to_seconds (year dt) (month dt) (day dt)
                          (hour dt) (minute dt) (second dt) in
  lt ← local tz t;
  let a := lt - t in
  let u1 := t - a in
  t1 ← local tz u1;
  let finish (b : Z) : option Z :=
    let u2 := t - b in
    t2 ← local tz u2;
    if t2 =? t then Some u2
    else if t1 =? t then Some u1
    else Some (Z.max u1 u2) in
  if t1 =? t then
    let u2 := u1 - max_fold_seconds in
    lt' ← local tz u2;
    let b := lt' - u2 in
    if a =? b then Some u1 else finish b
  else finish (t1 - u1).

(** [dt.timestamp()] for a naive [dt]: the wall-clock fields are read in
    the process's local time zone. *)
Definition timestamp (tz : timezone) (dt : datetime) : option Q :=
  s ← local_to_seconds tz dt;
  Some (inject_Z (s - epoch) + (microsecond dt # 1000000))%Q.

End Datetime.

(** ** Python values, as [response.json()] returns them *)

Module Value.

#[local] Set Warnings "-register-all".

(** A dictionary is the list of its items, in insertion order; its keys
    are distinct. *)
Inductive pyval :=
  | PNone
  | PBool (b : bool)
  | PInt (n : Z)
  | PFloat (x : Q)
  | PStr (s : string)
  | PList (l : list pyval)
  | PDict (d : list (string * pyval)).

Definition type_name (v : pyval) : string :=
  match v with
  | PNone => "NoneType"
  | PBool _ => "bool"
  | PInt _ => "int"
  | PFloat _ => "float"
  | PStr _ => "str"
  | PList _ => "list"
  | PDict _ => "dict"
  end.

(** Truth value of an object, as [if v:] tests it. *)
Definition truthy (v : pyval) : bool :=
  match v with
  | PNone => false
  | PBool b => b
  | PInt n => negb (n =? 0)
  | PFloat x => negb (Qeq_bool x 0)
  | PStr s => negb (Py.is_empty s)
  | PList l => match l with [] => false | _ => true end
  | PDict d => match d with [] => false | _ => true end
  end.

(** [v == s] for a string literal [s]. *)
Definition eq_str (v : pyval) (s : string) : bool :=
  match v with
  | PStr s' => String.eqb s' s
  | _ => false
  end.

Fixpoint lookup_key (key : string) (d : list (string * pyval))
  : option pyval :=
  match d with
  | [] => None
  | (k, v) :: d' => if String.eqb k key then Some v else lookup_key key d'
  end.

(** [v.get(key, default)]: defined on dictionaries only; [inr] carries the
    text of the [AttributeError]. *)
Definition get (v : pyval) (key : string) (default : pyval)
  : pyval + string :=
  match v with
  | PDict d =>
      inl (match lookup_key key d with Some x => x | None => default end)
  | _ => inr ("'" +:+ type_name v +:+ "' object has no attribute 'get'")
  end.

Fixpoint chars (s : string) : list pyval :=
  match s with
  | EmptyString => []
  | String c r => PStr (String c EmptyString) :: chars r
  end.

(** The items [for x in v] runs over; [inr] carries the text of the
    [TypeError]. *)
Definition iter (v : pyval) : list pyval + string :=
  match v with
  | PList l => inl l
  | PStr s => inl (chars s)
  | PDict d => inl (map (fun kv => PStr (fst kv)) d)
  | _ => inr ("'" +:+ type_name v +:+ "' object is not iterable")
  end.

End Value.

(** ** The script *)

Module Script.
Import Value Datetime.

Definition CACHE_DIR : string := "/tmp/check_domain_cache".
Definition CACHE_AGE : Z := 8 * 3600.

Definition STATE_OK : Z := 0.
Definition STATE_WARNING : Z := 1.
Definition STATE_CRITICAL : Z := 2.
Definition STATE_UNKNOWN : Z := 3.

(** *** The world the script runs in *)

Record file := mkFile { mtime : Q; content : string }.

(** What a path leads to: a regular file that reads as text, or something
    that is there but does not read as text (a directory, a file that may
    not be opened, bytes that do not decode), with the text of the
    exception that [open] or [read] raises on it. *)
Inductive node :=
  | Text (f : file)
  | Unreadable (changed : Q) (error : string).

(** [os.path.getmtime] *)
Definition node_mtime (n : node) : Q :=
  match n with
  | Text f => mtime f
  | Unreadable changed _ => changed
  end.

(** The file system, as far as the script meets it. *)
Record filesystem := mkFs {
  (* what there is, under the name [resolve] gives *)
  nodes : gmap string node;
  (* one name for all the paths that lead to the same file: [.], [..],
     repeated slashes and links followed *)
  resolve : string -> string;
  (* the text of the [OSError] of [os.makedirs(CACHE_DIR, exist_ok=True)],
     if it raises *)
  makedirs_error : option string;
  (* the text of the [OSError] of [open(path, "w")], if it raises: a
     directory of the path is missing, the name is too long, ... *)
  open_error : string -> option string;
  (* [f.write(text)] and the closing of the file: the text of the exception
     and what the file is left with, if one of them raises *)
  write_error : string -> string -> option (string * string)
}.

Definition with_nodes (m : gmap string node) (fs : filesystem) : filesystem :=
  mkFs m (resolve fs) (makedirs_error fs) (open_error fs) (write_error fs).

(** What the lookup service does with a request. *)
Inductive response :=
  | RequestFails (text : string)    (* [requests.get] raises *)
  | BodyNotJson (text : string)     (* [response.json()] raises *)
  | Json (data : pyval).

Record world := mkWorld {
  files : filesystem;
  clock : nat -> Q;           (* the readings of the system clock to come *)
  requested : list string;    (* the URLs fetched, latest first *)
  stdout : string             (* what has been printed *)
}.

(** What the run does not change: the local time zone and the service. *)
Record env := mkEnv {
  localtime : timezone;
  service : string -> response
}.

(** How a call ends: a value, an exception derived from [Exception] (with
    its [str()]), or [SystemExit]. *)
Inductive result (A : Type) :=
  | Return (a : A)
  | Raise (text : string)
  | SystemExit (state : Z).
Arguments Return {A} a.
Arguments Raise {A} text.
Arguments SystemExit {A} state.

Definition M (A : Type) : Type := world -> result A * world.

Definition ret {A} (a : A) : M A := fun w => (Return a, w).
Definition raise {A} (text : string) : M A := fun w => (Raise text, w).

Definition bind {A B} (m : M A) (k : A -> M B) : M B :=
  fun w =>
    match m w with
    | (Return a, w') => k a w'
    | (Raise text, w') => (Raise text, w')
    | (SystemExit state, w') => (SystemExit state, w')
    end.

Notation "'let*' x ':=' m 'in' k" := (bind m (fun x => k))
  (at level 10, x name, m at level 100, k at level 200).

(** [try: m  except Exception as e: h e] *)
Definition try_except {A} (m : M A) (h : string -> M A) : M A :=
  fun w =>
    match m w with
    | (Raise text, w') => h text w'
    | r => r
    end.

Definition lift {A} (x : A + string) : M A :=
  match x with
  | inl a => ret a
  | inr text => raise text
  end.

(** [print(message)] *)
Definition print (message : string) : M unit :=
  fun w =>
    (Return tt,
     mkWorld (files w) (clock w) (requested w)
             (stdout w +:+ message +:+ String Py.LF EmptyString)).

(** The next reading of the system clock. *)
Definition read_clock : M Q :=
  fun w =>
    (Return (clock w O),
     mkWorld (files w) (fun n => clock w (S n)) (requested w) (stdout w)).

(** [time.time()] *)
Definition time_time : M Q := read_clock.

Definition die {A} (state : Z) (message : string) : M A :=
  let* _ := print message in
  fun w => (SystemExit state, w).

(** [os.path.join] on POSIX. *)
Definition path_join (a b : string) : string :=
  match b with
  | String c _ =>
      if Py.is_char "/" c then b else a +:+ "/" +:+ b
  | EmptyString => a +:+ "/" +:+ b
  end.

Definition get_cache_file (domain : string) : string :=
  path_join CACHE_DIR (domain +:+ ".cache").

(** [os.path.exists] and [os.path.getmtime] see what the path leads to;
    [open(cache_file, "r")] and [f.read()] raise on what does not read as
    text.  The call is made outside every [try]. *)
Definition load_cached_data (domain : string) : M (option string) :=
  let cache_file := get_cache_file domain in
  fun w =>
    match nodes (files w) !! resolve (files w) cache_file with
    | Some n =>
        (let* now := time_time in
         if Py.float_lt (now - node_mtime n) (inject_Z CACHE_AGE)
         then match n with
              | Text f =>
                  ret (Some (Py.strip (Py.universal_newlines (content f))))
              | Unreadable _ error => raise error
              end
         else ret None) w
    | None => ret None w
    end.

(** The path leads to the text file [f] from now on. *)
Definition put_file (path : string) (f : file) : M unit :=
  fun w =>
    (Return tt,
     mkWorld (with_nodes (<[resolve (files w) path := Text f]>
                            (nodes (files w))) (files w))
             (clock w) (requested w) (stdout w)).

(** [os.makedirs(CACHE_DIR, exist_ok=True)] *)
Definition makedirs : M unit :=
  fun w =>
    match makedirs_error (files w) with
    | Some error => (Raise error, w)
    | None => (Return tt, w)
    end.

(** [open(path, "w")] creates or empties the file, stamped with the clock's
    reading, unless it raises. *)
Definition open_for_writing (path : string) : M Q :=
  fun w =>
    match open_error (files w) path with
    | Some error => (Raise error, w)
    | None =>
        (let* now := read_clock in
         let* _ := put_file path (mkFile now EmptyString) in
         ret now) w
    end.

(** [f.write(data)] raises a [TypeError] unless [data] is a [str]; the
    text is in the file once the [with] block has closed it. *)
Definition write_and_close (path : string) (now : Q) (data : pyval)
  : M unit :=
  match data with
  | PStr s =>
      fun w =>
        match write_error (files w) path s with
        | Some (error, remains) =>
            (let* _ := put_file path (mkFile now remains) in raise error) w
        | None => put_file path (mkFile now s) w
        end
  | _ => raise ("write() argument must be str, not " +:+ type_name data)
  end.

Definition save_to_cache (domain : string) (data : pyval) : M unit :=
  let path := get_cache_file domain in
  let* _ := makedirs in
  let* now := open_for_writing path in
  write_and_close path now data.

Definition parse_rdap_date (e : env) (date_str : string) : M Z :=
  match dt ← strptime date_str "%Y-%m-%dT%H:%M:%S.%fZ";
        timestamp (localtime e) dt with
  | Some x => ret (Py.int_of_float x)
  | None =>
      match dt ← strptime date_str "%Y-%m-%dT%H:%M:%SZ";
            timestamp (localtime e) dt with
      | Some x => ret (Py.int_of_float x)
      | None =>
          die STATE_UNKNOWN
              ("UNKNOWN - Invalid expiration date format: " +:+ date_str)
      end
  end.

(** [requests.get(rdap_url, timeout=10)] followed by [response.json()]. *)
Definition requests_get_json (e : env) (rdap_url : string) : M pyval :=
  fun w =>
    let w' := mkWorld (files w) (clock w) (rdap_url :: requested w)
                      (stdout w) in
    match service e rdap_url with
    | RequestFails text => (Raise text, w')
    | BodyNotJson text => (Raise text, w')
    | Json data => (Return data, w')
    end.

(** The [for event in events] loop and the [die] that follows it. *)
Fixpoint scan_events (domain : string) (events : list pyval) : M pyval :=
  match events with
  | [] => die STATE_UNKNOWN ("UNKNOWN - Expiry date not found for " +:+ domain)
  | event :: events' =>
      let* action := lift (get event "eventAction" PNone) in
      if eq_str action "expiration" then
        let* expiration := lift (get event "eventDate" PNone) in
        if truthy expiration then
          let* _ := save_to_cache domain expiration in
          ret expiration
        else scan_events domain events'
      else scan_events domain events'
  end.

(** [get_domain_expiration] from the cache miss on: the request and the
    [try] block around it. *)
Definition query_rdap (e : env) (domain : string) : M pyval :=
  let rdap_url := "https://rdap.org/domain/" +:+ domain in
  try_except
    (let* data := requests_get_json e rdap_url in
     let* events := lift (get data "events" (PList [])) in
     let* items := lift (iter events) in
     scan_events domain items)
    (fun text =>
       die STATE_UNKNOWN ("UNKNOWN - Error fetching RDAP data: " +:+ text)).

Definition get_domain_expiration (e : env) (domain : string) : M pyval :=
  let* cached := load_cached_data domain in
  match cached with
  | Some s => if Py.is_empty s then query_rdap e domain else ret (PStr s)
  | None => query_rdap e domain
  end.

Record arguments := mkArgs { domain : string; warning : Z; critical : Z }.

Definition days_left (exp_seconds now_seconds : Z) : Z :=
  (exp_seconds - now_seconds) / 86400.

(** The state and the message of [main]'s final [if] chain. *)
Definition verdict (args : arguments) (expiration_date : string)
    (days_left : Z) : Z * string :=
  if days_left <? 0 then
    (STATE_CRITICAL,
     "CRITICAL - Domain " +:+ domain args +:+ " expired "
       +:+ Py.str_of_int (- days_left) +:+ " days ago ("
       +:+ expiration_date +:+ ").")
  else if days_left <? critical args then
    (STATE_CRITICAL,
     "CRITICAL - Domain " +:+ domain args +:+ " will expire in "
       +:+ Py.str_of_int days_left +:+ " days (" +:+ expiration_date +:+ ").")
  else if days_left <? warning args then
    (STATE_WARNING,
     "WARNING - Domain " +:+ domain args +:+ " will expire in "
       +:+ Py.str_of_int days_left +:+ " days (" +:+ expiration_date +:+ ").")
  else
    (STATE_OK,
     "OK - Domain " +:+ domain args +:+ " will expire in "
       +:+ Py.str_of_int days_left +:+ " days (" +:+ expiration_date +:+ ").").

(** [main], from the parsed arguments on.  [strptime] raises a [TypeError]
    for an argument that is not a [str].  An exception that leaves [main]
    ends the run with a traceback on standard error and exit code 1. *)
Definition main (e : env) (args : arguments) : M unit :=
  let* expiration_date := get_domain_expiration e (domain args) in
  match expiration_date with
  | PStr date_str =>
      let* exp_seconds := parse_rdap_date e date_str in
      let* now := time_time in
      let now_seconds := Py.int_of_float now in
      let v := verdict args date_str (days_left exp_seconds now_seconds) in
      die (fst v) (snd v)
  | _ =>
      raise ("strptime() argument 1 must be str, not "
               +:+ type_name expiration_date)
  end.

End Script.

(** ** Vocabulary of the specification *)

Module Spec.
Import Value Datetime Script.

(** The four states of the monitoring convention. *)
Inductive status := OK | WARNING | CRITICAL | UNKNOWN.

Definition exit_code (s : status) : Z :=
  match s with OK => 0 | WARNING => 1 | CRITICAL => 2 | UNKNOWN => 3 end.

Definition status_name (s : status) : string :=
  match s with
  | OK => "OK" | WARNING => "WARNING"
  | CRITICAL => "CRITICAL" | UNKNOWN => "UNKNOWN"
  end.

(** The two wordings of a verdict. *)
Definition expired_message (args : arguments) (date : string) (n : Z)
  : string :=
  "CRITICAL - Domain " +:+ domain args +:+ " expired "
    +:+ Py.str_of_int n +:+ " days ago (" +:+ date +:+ ").".

Definition will_expire_message (s : status) (args : arguments)
    (date : string) (n : Z) : string :=
  status_name s +:+ " - Domain " +:+ domain args +:+ " will expire in "
    +:+ Py.str_of_int n +:+ " days (" +:+ date +:+ ").".

End Spec.

Module SpecCache.
Import Value Datetime Script.

(** The address the lookup service is queried at. *)
Definition rdap_url (domain : string) : string :=
  "https://rdap.org/domain/" +:+ domain.

(** What the cache path of a domain leads to, if to anything. *)
Definition cache_node (domain : string) (w : world) : option node :=
  nodes (files w) !! resolve (files w) (get_cache_file domain).

(** The cache file of a domain, if there is one that reads as text. *)
Definition cache_entry (domain : string) (w : world) : option file :=
  match cache_node domain w with
  | Some (Text f) => Some f
  | _ => None
  end.

(** The age of a file at a reading [now] of the clock, in seconds. *)
Definition age (now : Q) (f : file) : Q := (now - mtime f)%Q.

Definition freshness_window : Q := inject_Z 28800.

(** A text is blank when it is empty or all whitespace. *)
Fixpoint blank (s : string) : bool :=
  match s with
  | EmptyString => true
  | String c r => Py.isspace c && blank r
  end.

Fixpoint has_char (x : ascii) (s : string) : bool :=
  match s with
  | EmptyString => false
  | String c r => Py.is_char x c || has_char x r
  end.

(** A text is on one line when it holds no line feed. *)
Definition one_line (s : string) : bool := negb (has_char Py.LF s).

Fixpoint count_lines (s : string) : nat :=
  match s with
  | EmptyString => O
  | String c r => ((if Py.is_char Py.LF c then 1 else 0) + count_lines r)%nat
  end.

Definition starts_with_space (s : string) : bool :=
  match s with
  | EmptyString => false
  | String c _ => Py.isspace c
  end.

Fixpoint ends_with_space (s : string) : bool :=
  match s with
  | EmptyString => false
  | String c EmptyString => Py.isspace c
  | String _ r => ends_with_space r
  end.

End SpecCache.

Module SpecLookup.
Import Value Datetime Script SpecCache.

Definition not_found_message (domain : string) : string :=
  "UNKNOWN - Expiry date not found for " +:+ domain.

Definition lookup_error_message (text : string) : string :=
  "UNKNOWN - Error fetching RDAP data: " +:+ text.

Definition invalid_date_message (date_str : string) : string :=
  "UNKNOWN - Invalid expiration date format: " +:+ date_str.

(** The world after one reading of the clock. *)
Definition ticked (w : world) : world :=
  mkWorld (files w) (fun n => clock w (S n)) (requested w) (stdout w).

(** The world after [message] has been printed. *)
Definition printed (message : string) (w : world) : world :=
  mkWorld (files w) (clock w) (requested w)
          (stdout w +:+ message +:+ String Py.LF EmptyString).

(** The world after a request for [url] has been made. *)
Definition fetched (url : string) (w : world) : world :=
  mkWorld (files w) (clock w) (url :: requested w) (stdout w).

(** The world after [text] has been saved as the cache entry of [domain]:
    the file is stamped with the clock's next reading. *)
Definition saved (domain text : string) (w : world) : world :=
  let name := resolve (files w) (get_cache_file domain) in
  mkWorld (with_nodes
             (<[name := Text (mkFile (clock w O) text)]>
                (<[name := Text (mkFile (clock w O) EmptyString)]>
                   (nodes (files w))))
             (files w))
          (fun n => clock w (S n)) (requested w) (stdout w).

(** The world after the cache file of [domain] has been opened for writing
    and left empty: the file is stamped with the clock's next reading. *)
Definition emptied (domain : string) (w : world) : world :=
  mkWorld (with_nodes
             (<[resolve (files w) (get_cache_file domain)
                := Text (mkFile (clock w O) EmptyString)]>
                (nodes (files w)))
             (files w))
          (fun n => clock w (S n)) (requested w) (stdout w).

(** What keeps [save_to_cache] from opening the cache file, if anything:
    the directory cannot be made, or the file cannot be opened. *)
Definition open_failure (domain : string) (w : world) : option string :=
  match makedirs_error (files w) with
  | Some error => Some error
  | None => open_error (files w) (get_cache_file domain)
  end.

Definition openable (domain : string) (w : world) : Prop :=
  open_failure domain w = None.

(** What stops [save_to_cache], if anything: the file cannot be opened, or
    the text cannot be written. *)
Definition save_failure (domain text : string) (w : world) : option string :=
  match open_failure domain w with
  | Some error => Some error
  | None =>
      match write_error (files w) (get_cache_file domain) text with
      | Some (error, _) => Some error
      | None => None
      end
  end.

Definition writable (domain text : string) (w : world) : Prop :=
  save_failure domain text w = None.

Definition is_dict (v : pyval) : bool :=
  match v with PDict _ => true | _ => false end.

(** The event's action is "expiration". *)
Definition is_expiration (event : pyval) : bool :=
  match get event "eventAction" PNone with
  | inl action => eq_str action "expiration"
  | inr _ => false
  end.

(** The event's date, [None] (the Python value) when it has none. *)
Definition event_date (event : pyval) : pyval :=
  match get event "eventDate" PNone with
  | inl date => date
  | inr _ => PNone
  end.

(** An expiration event with a date that counts as true. *)
Definition dated_expiration (event : pyval) : bool :=
  is_expiration event && truthy (event_date event).

(** The specification's reading (section 4.2): the first entry whose
    [eventAction] is "expiration". *)
Definition first_expiration (events : list pyval) : option pyval :=
  List.find is_expiration events.

(** There is no usable cache entry: nothing at the cache path, something
    stale, or a fresh file whose text is blank. *)
Definition cache_miss (domain : string) (w : world) : Prop :=
  match cache_node domain w with
  | None => True
  | Some (Text f) =>
      (freshness_window <= age (clock w O) f)%Q \/ blank (content f) = true
  | Some (Unreadable changed _) =>
      (freshness_window <= clock w O - changed)%Q
  end.

(** The world after the cache has been consulted: the clock is read when
    the path leads to something. *)
Definition consulted (domain : string) (w : world) : world :=
  match cache_node domain w with
  | None => w
  | Some _ => ticked w
  end.

(** A fresh cache path that does not read as text: the exception of the
    read leaves [get_domain_expiration], which calls [load_cached_data]
    before its [try]. *)
Definition cache_raises (domain : string) (w : world) (text : string)
  : Prop :=
  exists changed,
    cache_node domain w = Some (Unreadable changed text)
    /\ (clock w O - changed < freshness_window)%Q.

(** *** How a run ends *)

Inductive outcome :=
  | LookupFailed (text : string)
  | NoExpiration
  | InvalidDate (date_str : string)
  | Verdict (date_str : string) (days : Z).

Definition outcome_status (args : arguments) (o : outcome) : Spec.status :=
  match o with
  | LookupFailed _ | NoExpiration | InvalidDate _ => Spec.UNKNOWN
  | Verdict _ days =>
      if days <? 0 then Spec.CRITICAL
      else if days <? critical args then Spec.CRITICAL
      else if days <? warning args then Spec.WARNING
      else Spec.OK
  end.

Definition outcome_details (args : arguments) (o : outcome) : string :=
  match o with
  | LookupFailed text => "Error fetching RDAP data: " +:+ text
  | NoExpiration => "Expiry date not found for " +:+ domain args
  | InvalidDate date_str =>
      "Invalid expiration date format: " +:+ date_str
  | Verdict date_str days =>
      if days <? 0
      then "Domain " +:+ domain args +:+ " expired "
             +:+ Py.str_of_int (- days) +:+ " days ago ("
             +:+ date_str +:+ ")."
      else "Domain " +:+ domain args +:+ " will expire in "
             +:+ Py.str_of_int days +:+ " days (" +:+ date_str +:+ ")."
  end.

(** The line a run prints: the status name, " - " and the details. *)
Definition outcome_message (args : arguments) (o : outcome) : string :=
  Spec.status_name (outcome_status args o) +:+ " - "
    +:+ outcome_details args o.

(** The strings from outside that the message embeds. *)
Definition outcome_inputs (args : arguments) (o : outcome) : list string :=
  match o with
  | LookupFailed text => [text]
  | NoExpiration => [domain args]
  | InvalidDate date_str => [date_str]
  | Verdict date_str _ => [domain args; date_str]
  end.

End SpecLookup.

(** ** Sample worlds *)

Module Sample.
Import Value Datetime Script.

(** A clock that advances by one second at each reading. *)
Definition ticking_from (t : Z) : nat -> Q :=
  fun n => inject_Z (t + Z.of_nat n).

(** *** A small POSIX file system

    Its directories are the root, [/tmp] and the cache directory; there are
    no links, and a file can be written wherever its directory exists. *)

(** The components of a path: the texts between its slashes. *)
Fixpoint components_from (current : string) (path : string) : list string :=
  match path with
  | EmptyString => [current]
  | String c r =>
      if Py.is_char "/" c then current :: components_from EmptyString r
      else components_from (current +:+ String c EmptyString) r
  end.

Definition components (path : string) : list string :=
  components_from EmptyString path.

(** A directory, or a file, is the list of the names that lead to it from
    the root, the last name first. *)
Definition directories : list (list string) :=
  [[]; ["tmp"]; ["check_domain_cache"; "tmp"]].

Fixpoint same_names (a b : list string) : bool :=
  match a, b with
  | [], [] => true
  | x :: a', y :: b' => String.eqb x y && same_names a' b'
  | _, _ => false
  end.

Definition is_directory (names : list string) : bool :=
  existsb (same_names names) directories.

(** Where the components lead from [names]; [None] when a name on the way
    is not a directory. *)
Fixpoint walk (names : list string) (path : list string)
  : option (list string) :=
  match path with
  | [] => Some names
  | c :: rest =>
      if is_directory names then
        if String.eqb c "" || String.eqb c "." then walk names rest
        else if String.eqb c ".." then walk (tl names) rest
        else walk (c :: names) rest
      else None
  end.

Definition path_of (names : list string) : string :=
  match names with
  | [] => "/"
  | _ => fold_right (fun name path => path +:+ "/" +:+ name) "" names
  end.

(** The path without [.], [..] and repeated slashes; a path that leads
    nowhere is its own name. *)
Definition canonical (path : string) : string :=
  match walk [] (components path) with
  | Some names => path_of names
  | None => path
  end.

(** The length of a text in UTF-8. *)
Fixpoint bytes (s : string) : Z :=
  match s with
  | EmptyString => 0
  | String c r => (if Py.ord c <? 128 then 1 else 2) + bytes r
  end.

Definition too_long (path : string) : bool :=
  (4095 <? bytes path)
  || existsb (fun name => 255 <? bytes name) (components path).

(** [open(path, "w")] on this file system. *)
Definition open_for_writing_error (path : string) : option string :=
  if too_long path
  then Some ("[Errno 36] File name too long: '" +:+ path +:+ "'")
  else
    match walk [] (components path) with
    | None => Some ("[Errno 2] No such file or directory: '" +:+ path +:+ "'")
    | Some names =>
        if is_directory names
        then Some ("[Errno 21] Is a directory: '" +:+ path +:+ "'")
        else None
    end.

(** The file system with no files in it. *)
Definition plain : filesystem :=
  mkFs ∅ canonical None open_for_writing_error (fun _ _ => None).

(** No files, nothing requested or printed; the clock starts on
    2025-02-19T21:20:00Z. *)
Definition quiet : world := mkWorld plain (ticking_from 1740000000) [] "".

Definition with_node (domain : string) (n : node) (w : world) : world :=
  mkWorld (with_nodes (<[resolve (files w) (get_cache_file domain) := n]>
                         (nodes (files w))) (files w))
          (clock w) (requested w) (stdout w).

Definition with_cache (domain text : string) (mtime : Z) (w : world)
  : world :=
  with_node domain (Text (mkFile (inject_Z mtime) text)) w.

Definition event (action date : string) : pyval :=
  PDict [("eventAction", PStr action); ("eventDate", PStr date)].

Definition undated (action : string) : pyval :=
  PDict [("eventAction", PStr action)].

(** A service that answers every request with these events. *)
Definition answering (tz : timezone) (events : list pyval) : env :=
  mkEnv tz (fun _ => Json (PDict [("events", PList events)])).

(** A service that cannot be reached. *)
Definition unreachable (tz : timezone) (text : string) : env :=
  mkEnv tz (fun _ => RequestFails text).

Definition newline : string := String Py.LF EmptyString.

End Sample.

Module SpecDate.
Import Datetime.

(** The specification's reading (section 4.3): the epoch second of the
    instant the fields denote when they are read as UTC, the sub-second
    part dropped. *)
Definition utc_epoch_second (dt : datetime) : Z :=
  utc_to_seconds (year dt) (month dt) (day dt)
                 (hour dt) (minute dt) (second dt) - epoch.

End SpecDate.

(** ** Vocabulary for the further properties *)

Module SpecPaths.
Import Script.

(** The name of the file that the cache path of a domain leads to. *)
Definition cache_name (domain : string) (w : world) : string :=
  resolve (files w) (get_cache_file domain).


(** A name that [os.path.join] takes for an absolute path. *)
Definition absolute (name : string) : bool :=
  match name with
  | String c _ => Py.is_char "/" c
  | EmptyString => false
  end.

End SpecPaths.

Module SpecIso.
Import Datetime.

(** The character of a decimal digit. *)
Definition digit (k : Z) : ascii := ascii_of_N (Z.to_N (48 + k)).

Definition two_digits (n : Z) : string :=
  String (digit (n / 10)) (String (digit (n mod 10)) EmptyString).

Definition four_digits (n : Z) : string :=
  String (digit (n / 1000))
    (String (digit (n / 100 mod 10)) (two_digits (n mod 100))).

Definition six_digits (n : Z) : string :=
  String (digit (n / 100000))
    (String (digit (n / 10000 mod 10)) (four_digits (n mod 10000))).

(** The fields of a date and time of day that exists. *)
Definition valid (dt : datetime) : Prop :=
  1 <= year dt <= 9999 /\ 1 <= month dt <= 12
  /\ 1 <= day dt <= days_in_month (year dt) (month dt)
  /\ 0 <= hour dt <= 23 /\ 0 <= minute dt <= 59 /\ 0 <= second dt <= 59
  /\ 0 <= microsecond dt <= 999999.

(** YYYY-MM-DDTHH:MM:SS, every field at its full width. *)
Definition iso_seconds (dt : datetime) : string :=
  four_digits (year dt) +:+ "-" +:+ two_digits (month dt) +:+ "-"
    +:+ two_digits (day dt) +:+ "T" +:+ two_digits (hour dt) +:+ ":"
    +:+ two_digits (minute dt) +:+ ":" +:+ two_digits (second dt).

(** The two forms of a timestamp the script reads. *)
Definition rdap_seconds (dt : datetime) : string := iso_seconds dt +:+ "Z".

Definition rdap_micros (dt : datetime) : string :=
  iso_seconds dt +:+ "." +:+ six_digits (microsecond dt) +:+ "Z".

(** The same fields with no fraction of a second. *)
Definition whole_second (dt : datetime) : datetime :=
  mkDatetime (year dt) (month dt) (day dt)
             (hour dt) (minute dt) (second dt) 0.

(** The last character of a string, if it has one. *)
Fixpoint last_char (s : string) : option ascii :=
  match s with
  | EmptyString => None
  | String c EmptyString => Some c
  | String _ r => last_char r
  end.

End SpecIso.

(** * Properties *)

Import Value Datetime Script.

(** ** Days left and the verdict *)

(** C4. [days_left] is the floor of the quotient by 86400: the one integer
    [d] with [86400 * d <= exp - now < 86400 * (d + 1)], also for a negative
    difference, where it lies below the truncated quotient unless the
    division is exact. *)
Theorem days_left_is_floor (exp_seconds now_seconds : Z) :
  let diff := exp_seconds - now_seconds in
  let d := days_left exp_seconds now_seconds in
  86400 * d <= diff < 86400 * (d + 1)
  /\ (forall d', 86400 * d' <= diff < 86400 * (d' + 1) -> d' = d)
  /\ (diff < 0 -> diff mod 86400 <> 0 -> d = Z.quot diff 86400 - 1).
Proof.
  intros diff d. unfold d, days_left. fold diff.
  pose proof (Z.div_mod diff 86400 ltac:(lia)) as Hdm.
  pose proof (Z.mod_pos_bound diff 86400 ltac:(lia)) as Hb.
  split; [lia|]. split.
  - intros d' Hd'. nia.
  - intros Hneg Hnz.
    assert (Hne : 86400 <> 0) by lia.
    pose proof (Z.quot_rem diff 86400 Hne) as Hqr.
    assert (H0 : 0 < 86400) by lia.
    assert (Hle : diff <= 0) by lia.
    pose proof (Z.rem_bound_pos_neg diff 86400 H0 Hle) as Hr.
    assert (Z.rem diff 86400 <> 0).
    { intros E. rewrite E in Hqr. apply Hnz.
      rewrite Hqr, Z.add_0_r, Z.mul_comm. apply Z.mod_mul. lia. }
    nia.
Qed.

Lemma days_left_is_floor_witness :
  86400 * (-1) <= 0 - 1 < 86400 * (-1 + 1)
  /\ days_left 0 1 = Z.quot (0 - 1) 86400 - 1.
Proof.
  pose proof (days_left_is_floor 0 1) as H. cbv zeta in H.
  destruct H as (H1 & _ & H3).
  split.
  - exact H1.
  - apply H3; [lia | discriminate].
Defined.
Import Spec.

Lemma string_length_app (a b : string) :
  String.length (a +:+ b) = (String.length a + String.length b)%nat.
Proof. induction a as [|c a IH]; simpl; [reflexivity | now rewrite IH]. Qed.

Lemma string_app_inv_tail (a b r : string) : a +:+ r = b +:+ r -> a = b.
Proof.
  revert b. induction a as [|c a IH]; intros [|c' b] H; simpl in H.
  - reflexivity.
  - apply (f_equal String.length) in H.
    rewrite !string_length_app in H. simpl in H. lia.
  - apply (f_equal String.length) in H.
    rewrite !string_length_app in H. simpl in H. lia.
  - injection H as -> H. f_equal. now apply IH.
Qed.

Lemma str_of_int_inj (n m : Z) : Py.str_of_int n = Py.str_of_int m -> n = m.
Proof.
  unfold Py.str_of_int. intros H.
  apply (f_equal NilEmpty.int_of_string) in H.
  rewrite !NilEmpty.isi in H. injection H as H.
  now apply DecimalZ.to_int_inj.
Qed.

Lemma expired_message_inj args date n m :
  expired_message args date n = expired_message args date m -> n = m.
Proof.
  unfold expired_message. intros H.
  apply String.app_inj in H. apply String.app_inj in H.
  apply String.app_inj in H.
  apply string_app_inv_tail in H. now apply str_of_int_inj.
Qed.

Lemma will_expire_not_expired s args date n m :
  will_expire_message s args date n <> expired_message args date m.
Proof.
  unfold will_expire_message, expired_message.
  destruct s; simpl; try discriminate.
  intros H.
  change (("CRITICAL - Domain " +:+ domain args) +:+ (" will expire in "
            +:+ Py.str_of_int n +:+ " days (" +:+ date +:+ ").")
          = ("CRITICAL - Domain " +:+ domain args) +:+ (" expired "
            +:+ Py.str_of_int m +:+ " days ago (" +:+ date +:+ ").")) in H.
  apply String.app_inj in H. discriminate H.
Qed.

(** The four branches of [main]'s final [if] chain. *)
Lemma verdict_cases (args : arguments) (date : string) (dl : Z) :
  (dl < 0 ->
     verdict args date dl = (STATE_CRITICAL, expired_message args date (- dl)))
  /\ (0 <= dl -> dl < critical args ->
        verdict args date dl
        = (STATE_CRITICAL, will_expire_message CRITICAL args date dl))
  /\ (0 <= dl -> critical args <= dl -> dl < warning args ->
        verdict args date dl
        = (STATE_WARNING, will_expire_message WARNING args date dl))
  /\ (0 <= dl -> critical args <= dl -> warning args <= dl ->
        verdict args date dl
        = (STATE_OK, will_expire_message OK args date dl)).
Proof.
  unfold verdict, expired_message, will_expire_message.
  repeat split; intros;
    repeat match goal with
           | |- context [?a <? ?b] =>
               destruct (Z.ltb_spec a b); try lia
           end;
    reflexivity.
Qed.

(** C3, as amended.  The [if] chain of [main] is a first-match-wins
    decision with strict comparisons: a negative [days_left] is CRITICAL
    with the wording "expired N days ago" for [N = - days_left]; else below
    [critical] is CRITICAL; else below [warning] is WARNING; else OK.  At
    [days_left = critical] the verdict is not CRITICAL unless [days_left]
    is negative, and at [days_left = warning] it is OK provided [days_left]
    is neither negative nor below [critical]. *)
Theorem verdict_decision_order (args : arguments) (date : string) (dl : Z) :
  (dl < 0 ->
     verdict args date dl = (STATE_CRITICAL, expired_message args date (- dl)))
  /\ (0 <= dl -> dl < critical args ->
        verdict args date dl
        = (STATE_CRITICAL, will_expire_message CRITICAL args date dl))
  /\ (0 <= dl -> critical args <= dl -> dl < warning args ->
        verdict args date dl
        = (STATE_WARNING, will_expire_message WARNING args date dl))
  /\ (0 <= dl -> critical args <= dl -> warning args <= dl ->
        verdict args date dl
        = (STATE_OK, will_expire_message OK args date dl))
  /\ (0 <= dl -> dl = critical args ->
        fst (verdict args date dl) <> STATE_CRITICAL)
  /\ (0 <= dl -> critical args <= dl -> dl = warning args ->
        fst (verdict args date dl) = STATE_OK).
Proof.
  destruct (verdict_cases args date dl) as (Hneg & Hcrit & Hwarn & Hok).
  repeat split; try assumption.
  - intros H0 Heq.
    destruct (Z.lt_ge_cases dl (warning args)) as [Hw|Hw].
    + rewrite Hwarn by lia. discriminate.
    + rewrite Hok by lia. discriminate.
  - intros H0 Hc Heq. rewrite Hok by lia. reflexivity.
Qed.

Lemma verdict_decision_order_witness :
  fst (verdict (mkArgs "example.com" 30 10) "2025-03-01T00:00:00Z" 30)
  = STATE_OK
  /\ fst (verdict (mkArgs "example.com" 30 10) "2025-03-01T00:00:00Z" 10)
     <> STATE_CRITICAL
  /\ verdict (mkArgs "example.com" 30 10) "2025-03-01T00:00:00Z" (-5)
     = (STATE_CRITICAL,
        "CRITICAL - Domain example.com expired 5 days ago (2025-03-01T00:00:00Z).").
Proof.
  pose proof (verdict_decision_order (mkArgs "example.com" 30 10)
                "2025-03-01T00:00:00Z" 30) as (_ & _ & _ & _ & _ & H30).
  pose proof (verdict_decision_order (mkArgs "example.com" 30 10)
                "2025-03-01T00:00:00Z" 10) as (_ & _ & _ & _ & H10 & _).
  pose proof (verdict_decision_order (mkArgs "example.com" 30 10)
                "2025-03-01T00:00:00Z" (-5)) as (H5 & _).
  split; [apply H30; simpl; lia|].
  split; [apply H10; simpl; lia|].
  apply H5. lia.
Defined.

(** C3, as stated, fails: with [warning = 30] and [critical = 40], thresholds
    the program accepts, [days_left = warning] is CRITICAL, not OK; and with
    [critical = -1], [days_left = critical] is CRITICAL. *)
Lemma verdict_equal_warning_not_ok :
  let args := mkArgs "example.com" 30 40 in
  let args' := mkArgs "example.com" 30 (-1) in
  (30 = warning args
   /\ fst (verdict args "2025-03-01T00:00:00Z" 30) = STATE_CRITICAL
   /\ STATE_CRITICAL <> STATE_OK)
  /\ (-1 = critical args'
      /\ fst (verdict args' "2025-03-01T00:00:00Z" (-1)) = STATE_CRITICAL).
Proof. repeat split; discriminate. Qed.

(** C10.  When the wording "expired N days ago" is chosen, that is when
    [days_left < 0], the count is [N = - days_left >= 1]; and no verdict
    reads "expired 0 days ago". *)
Theorem expired_count_positive (args : arguments) (date : string) (dl : Z) :
  (dl < 0 ->
     verdict args date dl = (STATE_CRITICAL, expired_message args date (- dl))
     /\ 1 <= - dl
     /\ Py.str_of_int (- dl) <> "0")
  /\ snd (verdict args date dl) <> expired_message args date 0.
Proof.
  pose proof (verdict_cases args date dl) as (Hneg & Hcrit & Hwarn & Hok).
  split.
  - intros H. split; [now apply Hneg|]. split; [lia|].
    intros E. change "0" with (Py.str_of_int 0) in E.
    apply str_of_int_inj in E. lia.
  - destruct (Z.lt_ge_cases dl 0) as [H|H].
    + rewrite (Hneg H). simpl. intros E.
      apply expired_message_inj in E. lia.
    + destruct (Z.lt_ge_cases dl (critical args)) as [Hc|Hc].
      { rewrite (Hcrit H Hc). apply will_expire_not_expired. }
      destruct (Z.lt_ge_cases dl (warning args)) as [Hw|Hw].
      { rewrite (Hwarn H Hc Hw). apply will_expire_not_expired. }
      rewrite (Hok H Hc Hw). apply will_expire_not_expired.
Qed.

Lemma expired_count_positive_witness :
  verdict (mkArgs "example.com" 30 10) "2020-03-01T00:00:00Z" (-1)
  = (STATE_CRITICAL,
     "CRITICAL - Domain example.com expired 1 days ago (2020-03-01T00:00:00Z).")
  /\ 1 <= - (-1).
Proof.
  pose proof (expired_count_positive (mkArgs "example.com" 30 10)
                "2020-03-01T00:00:00Z" (-1)) as (H & _).
  destruct (H ltac:(lia)) as (H1 & H2 & _).
  split; [exact H1 | exact H2].
Defined.
Import SpecCache.

(** ** The cache *)

Lemma float_lt_iff (x y : Q) : Py.float_lt x y = true <-> (x < y)%Q.
Proof.
  unfold Py.float_lt. rewrite negb_true_iff.
  split.
  - intros H. apply Qnot_le_lt. intros Hle.
    apply Qle_bool_iff in Hle. congruence.
  - intros H. destruct (Qle_bool y x) eqn:E; [|reflexivity].
    apply Qle_bool_iff in E. exfalso. exact (Qlt_not_le _ _ H E).
Qed.

Lemma float_lt_false_iff (x y : Q) : Py.float_lt x y = false <-> (y <= x)%Q.
Proof.
  unfold Py.float_lt. rewrite negb_false_iff. apply Qle_bool_iff.
Qed.

Lemma cache_entry_node domain w f :
  cache_entry domain w = Some f <-> cache_node domain w = Some (Text f).
Proof.
  unfold cache_entry.
  destruct (cache_node domain w) as [[f'|changed error]|]; split;
    congruence.
Qed.

Lemma load_cached_data_absent domain w :
  cache_node domain w = None ->
  load_cached_data domain w = (Return None, w).
Proof. unfold cache_node, load_cached_data. now intros ->. Qed.

Lemma load_cached_data_present domain w f :
  cache_entry domain w = Some f ->
  load_cached_data domain w
  = (Return (if Py.float_lt (clock w O - mtime f) (inject_Z CACHE_AGE)
             then Some (Py.strip (Py.universal_newlines (content f)))
             else None),
     snd (read_clock w)).
Proof.
  intros Hf%cache_entry_node. unfold cache_node in Hf.
  unfold load_cached_data. rewrite Hf.
  unfold bind, time_time, read_clock; simpl.
  now destruct (Py.float_lt _ _).
Qed.

(** Something that does not read as text makes a fresh cache raise, and is
    passed over when stale. *)
Lemma load_cached_data_unreadable domain w changed error :
  cache_node domain w = Some (Unreadable changed error) ->
  load_cached_data domain w
  = (if Py.float_lt (clock w O - changed) (inject_Z CACHE_AGE)
     then Raise error else Return None,
     snd (read_clock w)).
Proof.
  unfold cache_node, load_cached_data. intros ->.
  unfold bind, time_time, read_clock; simpl.
  now destruct (Py.float_lt _ _).
Qed.

Lemma blank_lstrip s : blank (Py.lstrip s) = blank s.
Proof.
  induction s as [|c s IH]; simpl; [reflexivity|].
  destruct (Py.isspace c) eqn:E; simpl; [exact IH | now rewrite E].
Qed.

Lemma rstrip_empty_iff s : Py.rstrip s = "" <-> blank s = true.
Proof.
  induction s as [|c s IH]; simpl; [tauto|].
  destruct (Py.rstrip s) eqn:Er; simpl.
  - destruct (Py.isspace c); simpl.
    + split; intros _; [now apply IH | reflexivity].
    + split; discriminate.
  - split; [discriminate|]. intros [_ Hs]%andb_true_iff.
    apply IH in Hs. discriminate.
Qed.

Lemma strip_empty_iff s : Py.strip s = "" <-> blank s = true.
Proof. unfold Py.strip. now rewrite rstrip_empty_iff, blank_lstrip. Qed.

Lemma is_char_eq x c : Py.is_char x c = true -> c = x.
Proof.
  unfold Py.is_char, Py.ord. intros H%Z.eqb_eq.
  apply N2Z.inj in H.
  rewrite <- (ascii_N_embedding c), <- (ascii_N_embedding x). now f_equal.
Qed.

Lemma blank_universal_newlines_aux (n : nat) :
  forall s, (String.length s <= n)%nat ->
            blank (Py.universal_newlines s) = blank s.
Proof.
  induction n as [|n IH]; intros [|c s] Hlen; simpl in Hlen;
    try reflexivity; try lia.
  simpl. destruct (Py.is_char Py.CR c) eqn:Ec.
  - apply is_char_eq in Ec. subst c.
    destruct s as [|c' s'].
    + reflexivity.
    + destruct (Py.is_char Py.LF c') eqn:El.
      * apply is_char_eq in El. subst c'. simpl in *.
        rewrite IH; [reflexivity | lia].
      * change (blank (String Py.LF (Py.universal_newlines (String c' s'))))
          with (Py.isspace Py.LF && blank (Py.universal_newlines (String c' s'))).
        rewrite IH; [reflexivity | simpl in *; lia].
  - simpl. rewrite IH; [reflexivity | lia].
Qed.

Lemma blank_universal_newlines s :
  blank (Py.universal_newlines s) = blank s.
Proof. now apply (blank_universal_newlines_aux (String.length s)). Qed.

Lemma read_blank_iff s :
  Py.is_empty (Py.strip (Py.universal_newlines s)) = true <-> blank s = true.
Proof.
  rewrite <- (blank_universal_newlines s), <- strip_empty_iff.
  destruct (Py.strip _); simpl; split; congruence.
Qed.
Import SpecLookup.

(** ** The lookup *)

Lemma die_eq {A} state message w :
  @die A state message w = (SystemExit state, printed message w).
Proof. reflexivity. Qed.

Lemma then_ret_unfold {A B} (m : M A) (b : B) w :
  (let* _ := m in ret b) w =
  match m w with
  | (Return _, w') => (Return b, w')
  | (Raise text, w') => (Raise text, w')
  | (SystemExit state, w') => (SystemExit state, w')
  end.
Proof. reflexivity. Qed.

(** The save, case by case. *)
Lemma save_to_cache_unfold domain data w :
  save_to_cache domain data w =
  match makedirs_error (files w) with
  | Some error => (Raise error, w)
  | None =>
      match open_error (files w) (get_cache_file domain) with
      | Some error => (Raise error, w)
      | None =>
          match data with
          | PStr s =>
              match write_error (files w) (get_cache_file domain) s with
              | Some (error, remains) =>
                  (Raise error, saved domain remains w)
              | None => (Return tt, saved domain s w)
              end
          | _ =>
              (Raise ("write() argument must be str, not "
                        +:+ type_name data), emptied domain w)
          end
      end
  end.
Proof.
  unfold save_to_cache, bind at 1, makedirs.
  destruct (makedirs_error (files w)); [reflexivity|].
  unfold bind at 1, open_for_writing.
  destruct (open_error (files w) (get_cache_file domain)); [reflexivity|].
  destruct data; reflexivity.
Qed.

Lemma save_to_cache_str domain s w :
  writable domain s w ->
  save_to_cache domain (PStr s) w = (Return tt, saved domain s w).
Proof.
  unfold writable, save_failure, open_failure. rewrite save_to_cache_unfold.
  destruct (makedirs_error (files w)); [discriminate|].
  destruct (open_error (files w) (get_cache_file domain)); [discriminate|].
  destruct (write_error (files w) (get_cache_file domain) s)
    as [[error remains]|]; [discriminate | reflexivity].
Qed.

(** A save that is stopped raises the error; nothing is printed or
    requested. *)
Lemma save_to_cache_stopped domain s w text :
  save_failure domain s w = Some text ->
  fst (save_to_cache domain (PStr s) w) = Raise text
  /\ requested (snd (save_to_cache domain (PStr s) w)) = requested w
  /\ stdout (snd (save_to_cache domain (PStr s) w)) = stdout w.
Proof.
  unfold save_failure, open_failure. rewrite save_to_cache_unfold.
  destruct (makedirs_error (files w)); [now intros [= ->]|].
  destruct (open_error (files w) (get_cache_file domain));
    [now intros [= ->]|].
  destruct (write_error (files w) (get_cache_file domain) s)
    as [[error remains]|]; [now intros [= ->] | discriminate].
Qed.

(** Whatever is saved: the save returns or raises, and prints and requests
    nothing. *)
Lemma save_to_cache_outcome domain data w :
  requested (snd (save_to_cache domain data w)) = requested w
  /\ stdout (snd (save_to_cache domain data w)) = stdout w
  /\ match fst (save_to_cache domain data w) with
     | Return _ => exists s, data = PStr s
     | Raise _ => True
     | SystemExit _ => False
     end.
Proof.
  rewrite save_to_cache_unfold.
  destruct (makedirs_error (files w)); [now repeat split|].
  destruct (open_error (files w) (get_cache_file domain));
    [now repeat split|].
  destruct data; try now repeat split.
  destruct (write_error (files w) (get_cache_file domain) s)
    as [[error remains]|]; repeat split; trivial.
  now exists s.
Qed.

(** One turn of the loop. *)
Lemma scan_events_step domain event events w :
  scan_events domain (event :: events) w =
  match event with
  | PDict _ =>
      if dated_expiration event then
        (let* _ := save_to_cache domain (event_date event) in
         ret (event_date event)) w
      else scan_events domain events w
  | _ => (Raise ("'" +:+ type_name event
                     +:+ "' object has no attribute 'get'"), w)
  end.
Proof.
  destruct event; try reflexivity.
  unfold dated_expiration, is_expiration, event_date, get.
  cbn [scan_events]. unfold bind at 1. simpl.
  destruct (eq_str _ "expiration"); [|reflexivity].
  unfold bind at 1. simpl.
  now destruct (truthy _).
Qed.

Lemma truthy_str v :
  truthy v = true -> forall s, v = PStr s -> s <> "".
Proof. intros H s ->. now destruct s. Qed.

(** What the loop over the events leaves behind, whatever the events are. *)
Lemma scan_events_outcome domain events w :
  requested (snd (scan_events domain events w)) = requested w
  /\ match fst (scan_events domain events w) with
     | Return v =>
         (exists s, v = PStr s /\ s <> "")
         /\ stdout (snd (scan_events domain events w)) = stdout w
     | Raise _ => stdout (snd (scan_events domain events w)) = stdout w
     | SystemExit state =>
         state = STATE_UNKNOWN
         /\ stdout (snd (scan_events domain events w))
            = stdout w +:+ not_found_message domain +:+ String Py.LF ""
     end.
Proof.
  induction events as [|event events IH].
  - cbn. auto.
  - rewrite scan_events_step.
    destruct event; try (split; reflexivity).
    destruct (dated_expiration (PDict d)) eqn:Hd; [|exact IH].
    apply andb_true_iff in Hd as [_ Ht].
    pose proof (save_to_cache_outcome domain (event_date (PDict d)) w)
      as (Hr & Ho & Hk).
    rewrite then_ret_unfold.
    destruct (save_to_cache domain (event_date (PDict d)) w)
      as [[[]|text|state] w']; cbn [fst snd] in *; try contradiction.
    + split; [exact Hr|]. split; [|exact Ho].
      destruct Hk as [s Hs]. exists s. split; [exact Hs|].
      rewrite Hs in Ht. now apply (truthy_str (PStr s)).
    + split; [exact Hr | exact Ho].
Qed.

Lemma query_rdap_fails e domain w text :
  service e (rdap_url domain) = RequestFails text
  \/ service e (rdap_url domain) = BodyNotJson text ->
  query_rdap e domain w
  = (SystemExit STATE_UNKNOWN,
     printed (lookup_error_message text) (fetched (rdap_url domain) w)).
Proof.
  unfold query_rdap, try_except, bind at 1, requests_get_json.
  fold (rdap_url domain). now intros [-> | ->].
Qed.

Lemma query_rdap_events e domain w d events :
  service e (rdap_url domain) = Json (PDict d) ->
  lookup_key "events" d = Some (PList events) ->
  query_rdap e domain w
  = try_except (scan_events domain events)
      (fun text => die STATE_UNKNOWN (lookup_error_message text))
      (fetched (rdap_url domain) w).
Proof.
  intros Hs Hl.
  unfold query_rdap, try_except, bind at 1, requests_get_json.
  fold (rdap_url domain). rewrite Hs.
  unfold bind at 1. simpl. rewrite Hl. reflexivity.
Qed.

(** The query, case by case. *)
Lemma query_rdap_unfold e domain w :
  query_rdap e domain w =
  let failed text : result pyval * world :=
    (SystemExit STATE_UNKNOWN,
     printed (lookup_error_message text) (fetched (rdap_url domain) w)) in
  match service e (rdap_url domain) with
  | RequestFails text | BodyNotJson text => failed text
  | Json data =>
      match get data "events" (PList []) with
      | inr text => failed text
      | inl events =>
          match iter events with
          | inr text => failed text
          | inl items =>
              try_except (scan_events domain items)
                (fun text => die STATE_UNKNOWN (lookup_error_message text))
                (fetched (rdap_url domain) w)
          end
      end
  end.
Proof.
  unfold query_rdap, try_except, bind at 1, requests_get_json.
  fold (rdap_url domain).
  destruct (service e (rdap_url domain)) as [text|text|data];
    try reflexivity.
  unfold bind at 1.
  destruct (get data "events" (PList [])) as [events|text];
    [|reflexivity].
  cbn [lift ret]. unfold bind at 1.
  destruct (iter events) as [items|text]; reflexivity.
Qed.

Lemma try_scan_outcome domain items w0 :
  let rw := try_except (scan_events domain items)
      (fun text => die STATE_UNKNOWN (lookup_error_message text)) w0 in
  requested (snd rw) = requested w0
  /\ match fst rw with
     | Return v => (exists s, v = PStr s /\ s <> "")
                   /\ stdout (snd rw) = stdout w0
     | Raise _ => False
     | SystemExit state =>
         state = STATE_UNKNOWN
         /\ (stdout (snd rw)
             = stdout w0 +:+ not_found_message domain +:+ String Py.LF ""
             \/ exists text,
                 stdout (snd rw)
                 = stdout w0 +:+ lookup_error_message text +:+ String Py.LF "")
     end.
Proof.
  intros rw. subst rw. unfold try_except.
  pose proof (scan_events_outcome domain items w0) as [Hr Ho].
  destruct (scan_events domain items w0) as [[v|text|state] w']; simpl in *.
  - auto.
  - rewrite Hr, Ho. split; [reflexivity|]. split; [reflexivity|].
    right. now exists text.
  - destruct Ho as [-> Ho]. auto.
Qed.

(** What a query leaves behind, whatever the service answers: exactly one
    request, and either a non-empty string or an exit in state UNKNOWN. *)
Lemma query_rdap_outcome e domain w :
  requested (snd (query_rdap e domain w)) = rdap_url domain :: requested w
  /\ match fst (query_rdap e domain w) with
     | Return v =>
         (exists s, v = PStr s /\ s <> "")
         /\ stdout (snd (query_rdap e domain w)) = stdout w
     | Raise _ => False
     | SystemExit state =>
         state = STATE_UNKNOWN
         /\ (stdout (snd (query_rdap e domain w))
             = stdout w +:+ not_found_message domain +:+ String Py.LF ""
             \/ exists text,
                 stdout (snd (query_rdap e domain w))
                 = stdout w +:+ lookup_error_message text +:+ String Py.LF "")
     end.
Proof.
  rewrite query_rdap_unfold. cbv zeta.
  assert (Hfail : forall text,
    requested (printed (lookup_error_message text)
                 (fetched (rdap_url domain) w))
    = rdap_url domain :: requested w
    /\ STATE_UNKNOWN = STATE_UNKNOWN
    /\ (stdout (printed (lookup_error_message text)
                  (fetched (rdap_url domain) w))
        = stdout w +:+ not_found_message domain +:+ String Py.LF ""
        \/ exists text0,
            stdout (printed (lookup_error_message text)
                      (fetched (rdap_url domain) w))
            = stdout w +:+ lookup_error_message text0 +:+ String Py.LF "")).
  { intros text. split; [reflexivity|]. split; [reflexivity|].
    right. now exists text. }
  destruct (service e (rdap_url domain)) as [text|text|data];
    try exact (Hfail text).
  destruct (get data "events" (PList [])) as [events|text];
    [|exact (Hfail text)].
  destruct (iter events) as [items|text]; [|exact (Hfail text)].
  exact (try_scan_outcome domain items (fetched (rdap_url domain) w)).
Qed.

Lemma get_domain_expiration_unfold e domain w :
  get_domain_expiration e domain w =
  match cache_node domain w with
  | None => query_rdap e domain w
  | Some n =>
      if Py.float_lt (clock w O - node_mtime n) (inject_Z CACHE_AGE) then
        match n with
        | Text f =>
            let v := Py.strip (Py.universal_newlines (content f)) in
            if Py.is_empty v then query_rdap e domain (ticked w)
            else (Return (PStr v), ticked w)
        | Unreadable _ error => (Raise error, ticked w)
        end
      else query_rdap e domain (ticked w)
  end.
Proof.
  unfold get_domain_expiration, bind at 1.
  destruct (cache_node domain w) as [[f|changed error]|] eqn:Ec.
  - apply cache_entry_node in Ec.
    rewrite (load_cached_data_present _ _ _ Ec).
    change (snd (read_clock w)) with (ticked w). cbn [node_mtime].
    destruct (Py.float_lt _ _); [|reflexivity].
    cbv zeta. now destruct (Py.is_empty _).
  - rewrite (load_cached_data_unreadable _ _ _ _ Ec).
    change (snd (read_clock w)) with (ticked w). cbn [node_mtime].
    now destruct (Py.float_lt _ _).
  - now rewrite (load_cached_data_absent _ _ Ec).
Qed.


(** C5, as amended.  With a fresh cache entry (age below 28800 seconds)
    that is not blank, [get_domain_expiration] returns the cached text,
    stripped of surrounding whitespace, and makes no request; with nothing
    at the cache path, or something stale there (age at least 28800
    seconds: a file, or what does not read as one), it queries the lookup
    service, once, at the domain's address. *)
Theorem cache_hit_or_query (e : env) (domain : string) (w : world) :
  (forall f,
      cache_entry domain w = Some f ->
      (age (clock w O) f < freshness_window)%Q ->
      blank (content f) = false ->
      fst (get_domain_expiration e domain w)
      = Return (PStr (Py.strip (Py.universal_newlines (content f))))
      /\ requested (snd (get_domain_expiration e domain w)) = requested w)
  /\ (cache_node domain w = None
      \/ (exists f, cache_entry domain w = Some f
                    /\ (freshness_window <= age (clock w O) f)%Q)
      \/ (exists changed error,
            cache_node domain w = Some (Unreadable changed error)
            /\ (freshness_window <= clock w O - changed)%Q) ->
      requested (snd (get_domain_expiration e domain w))
      = rdap_url domain :: requested w).
Proof.
  rewrite get_domain_expiration_unfold. split.
  - intros f ->%cache_entry_node Hfresh Hblank. cbn [node_mtime].
    apply float_lt_iff in Hfresh. unfold age, freshness_window in Hfresh.
    change (inject_Z CACHE_AGE) with (inject_Z 28800). rewrite Hfresh.
    cbv zeta.
    destruct (Py.is_empty _) eqn:E; [|split; reflexivity].
    apply read_blank_iff in E. congruence.
  - intros [-> | [(f & ->%cache_entry_node & Hstale)
                  | (changed & error & -> & Hstale)]].
    + apply query_rdap_outcome.
    + apply float_lt_false_iff in Hstale. cbn [node_mtime].
      unfold age, freshness_window in Hstale.
      change (inject_Z CACHE_AGE) with (inject_Z 28800). rewrite Hstale.
      apply (query_rdap_outcome e domain (ticked w)).
    + apply float_lt_false_iff in Hstale. cbn [node_mtime].
      unfold freshness_window in Hstale.
      change (inject_Z CACHE_AGE) with (inject_Z 28800). rewrite Hstale.
      apply (query_rdap_outcome e domain (ticked w)).
Qed.

(** C9.  A fresh cache file whose content is empty or all whitespace is a
    cache miss: the lookup service is queried.  Whatever the cache and the
    service hold, a value [get_domain_expiration] returns is a non-empty
    string. *)
Theorem blank_cache_is_a_miss (e : env) (domain : string) (w : world) :
  (forall f,
      cache_entry domain w = Some f ->
      (age (clock w O) f < freshness_window)%Q ->
      blank (content f) = true ->
      get_domain_expiration e domain w = query_rdap e domain (ticked w)
      /\ requested (snd (get_domain_expiration e domain w))
         = rdap_url domain :: requested w)
  /\ (forall v,
        fst (get_domain_expiration e domain w) = Return v ->
        exists s, v = PStr s /\ s <> "").
Proof.
  rewrite get_domain_expiration_unfold. split.
  - intros f ->%cache_entry_node Hfresh Hblank. cbn [node_mtime].
    apply float_lt_iff in Hfresh. unfold age, freshness_window in Hfresh.
    change (inject_Z CACHE_AGE) with (inject_Z 28800). rewrite Hfresh.
    cbv zeta. apply read_blank_iff in Hblank. rewrite Hblank.
    split; [reflexivity|].
    apply (query_rdap_outcome e domain (ticked w)).
  - assert (Hq : forall w0 v, fst (query_rdap e domain w0) = Return v ->
                              exists s, v = PStr s /\ s <> "").
    { intros w0 v Hv. pose proof (query_rdap_outcome e domain w0) as [_ H].
      rewrite Hv in H. apply H. }
    intros v.
    destruct (cache_node domain w) as [[f|changed error]|]; [| |apply Hq].
    + cbn [node_mtime]. destruct (Py.float_lt _ _); [|apply Hq].
      cbv zeta. destruct (Py.is_empty _) eqn:E; [apply Hq|].
      simpl. intros [= <-]. eexists. split; [reflexivity|].
      intros E'. rewrite E' in E. discriminate E.
    + destruct (Py.float_lt _ _); [discriminate | apply Hq].
Qed.
Import Sample.

Lemma cache_hit_or_query_witness :
  let e := unreachable UTC "timed out" in
  let w := with_cache "example.com" ("2025-03-01T00:00:00Z" +:+ newline)
             1739990000 quiet in
  (fst (get_domain_expiration e "example.com" w)
   = Return (PStr "2025-03-01T00:00:00Z")
   /\ requested (snd (get_domain_expiration e "example.com" w)) = [])
  /\ requested (snd (get_domain_expiration e "example.com" quiet))
     = ["https://rdap.org/domain/example.com"].
Proof.
  intros e w. split.
  - apply (proj1 (cache_hit_or_query e "example.com" w)
             (mkFile (inject_Z 1739990000)
                     ("2025-03-01T00:00:00Z" +:+ newline)));
      [vm_compute; reflexivity | reflexivity | reflexivity].
  - apply (proj2 (cache_hit_or_query e "example.com" quiet)).
    left. vm_compute. reflexivity.
Defined.

(** C5, as stated, fails: a fresh cache file that is empty does not stop
    the request. *)
Lemma fresh_empty_cache_is_queried :
  let e := unreachable UTC "timed out" in
  let w := with_cache "example.com" "" 1739990000 quiet in
  cache_entry "example.com" w = Some (mkFile (inject_Z 1739990000) "")
  /\ (age (clock w O) (mkFile (inject_Z 1739990000) "") < freshness_window)%Q
  /\ requested w = []
  /\ requested (snd (get_domain_expiration e "example.com" w))
     = ["https://rdap.org/domain/example.com"]
  /\ fst (get_domain_expiration e "example.com" w) = SystemExit STATE_UNKNOWN.
Proof.
  intros e w. repeat split; vm_compute; reflexivity.
Qed.

Lemma blank_cache_is_a_miss_witness :
  let e := answering UTC [event "expiration" "2025-03-01T00:00:00Z"] in
  let w := with_cache "example.com" (" " +:+ newline) 1739990000 quiet in
  requested (snd (get_domain_expiration e "example.com" w))
  = ["https://rdap.org/domain/example.com"]
  /\ exists s, PStr "2025-03-01T00:00:00Z" = PStr s /\ s <> "".
Proof.
  intros e w.
  pose proof (blank_cache_is_a_miss e "example.com" w) as [H1 H2].
  split.
  - apply (H1 (mkFile (inject_Z 1739990000) (" " +:+ newline)));
      [vm_compute; reflexivity | reflexivity | reflexivity].
  - apply H2. vm_compute. reflexivity.
Defined.

(** ** Saving and loading *)


Lemma lstrip_id s : starts_with_space s = false -> Py.lstrip s = s.
Proof. destruct s as [|c s]; simpl; [reflexivity | now intros ->]. Qed.

Lemma rstrip_id s : ends_with_space s = false -> Py.rstrip s = s.
Proof.
  induction s as [|c s IH]; [reflexivity|].
  destruct s as [|c' s'].
  - simpl. now intros ->.
  - intros H. change (ends_with_space (String c' s') = false) in H.
    pose proof (IH H) as E.
    change (Py.rstrip (String c (String c' s')))
      with (if Py.is_empty (Py.rstrip (String c' s')) && Py.isspace c
            then "" else String c (Py.rstrip (String c' s'))).
    rewrite E. reflexivity.
Qed.

Lemma strip_id s :
  starts_with_space s = false -> ends_with_space s = false ->
  Py.strip s = s.
Proof.
  intros Hl Hr. unfold Py.strip. rewrite (lstrip_id s Hl). now apply rstrip_id.
Qed.





(** A domain with a slash in it names a file in a directory that nobody
    made: [open] raises, the save stores nothing, and the lookup that
    wanted to save ends in state UNKNOWN with the error's text. *)
Example save_to_cache_refused :
  let path := "/tmp/check_domain_cache/a/example.com.cache" in
  let error := "[Errno 2] No such file or directory: '" +:+ path +:+ "'" in
  let e := answering UTC [event "expiration" "2031-03-01T00:00:00Z"] in
  let run := get_domain_expiration e "a/example.com" quiet in
  get_cache_file "a/example.com" = path
  /\ fst (save_to_cache "a/example.com" (PStr "2031-03-01T00:00:00Z") quiet)
     = Raise error
  /\ fst run = SystemExit 3
  /\ stdout (snd run)
     = "UNKNOWN - Error fetching RDAP data: " +:+ error +:+ newline
  /\ requested (snd run) = ["https://rdap.org/domain/a/example.com"]
  /\ nodes (files (snd run)) = nodes (files quiet).
Proof.
  intros path error e run. split; [reflexivity|].
  repeat split; vm_compute; reflexivity.
Qed.


(** ** The choice of the expiration event *)

Lemma get_domain_expiration_miss e domain w :
  cache_miss domain w ->
  get_domain_expiration e domain w = query_rdap e domain (consulted domain w).
Proof.
  unfold cache_miss, consulted. rewrite get_domain_expiration_unfold.
  destruct (cache_node domain w) as [[f|changed error]|]; [| |reflexivity];
    cbn [node_mtime]; change (inject_Z CACHE_AGE) with freshness_window.
  - fold (age (clock w O) f).
    destruct (Py.float_lt _ _) eqn:Ef; [|reflexivity].
    intros [Hstale | Hblank].
    + apply float_lt_false_iff in Hstale. congruence.
    + cbv zeta. apply read_blank_iff in Hblank. now rewrite Hblank.
  - intros Hstale%float_lt_false_iff. now rewrite Hstale.
Qed.

(** Consulting the cache and making the request leave the file system as
    it is. *)
Lemma files_consulted domain w : files (consulted domain w) = files w.
Proof. unfold consulted. now destruct (cache_node domain w). Qed.

Lemma writable_files domain text w w' :
  files w' = files w -> writable domain text w' = writable domain text w.
Proof. unfold writable, save_failure, open_failure. now intros ->. Qed.

Lemma save_failure_files domain text w w' :
  files w' = files w -> save_failure domain text w' = save_failure domain text w.
Proof. unfold save_failure, open_failure. now intros ->. Qed.

Lemma scan_events_skip domain pre rest w :
  forallb is_dict pre = true ->
  existsb dated_expiration pre = false ->
  scan_events domain (pre ++ rest)%list w = scan_events domain rest w.
Proof.
  induction pre as [|event pre IH]; [reflexivity|].
  intros [Hd Hds]%andb_true_iff [Hx Hxs]%orb_false_iff.
  rewrite <- app_comm_cons, scan_events_step.
  destruct event; try discriminate Hd.
  rewrite Hx. now apply IH.
Qed.

Lemma scan_events_dated domain event post s w :
  is_expiration event = true ->
  event_date event = PStr s -> s <> "" ->
  scan_events domain (event :: post) w
  = match save_to_cache domain (PStr s) w with
    | (Return _, w') => (Return (PStr s), w')
    | (Raise text, w') => (Raise text, w')
    | (SystemExit state, w') => (SystemExit state, w')
    end.
Proof.
  intros He Hd Hs. rewrite scan_events_step.
  destruct event; try discriminate He.
  unfold dated_expiration. rewrite He, Hd.
  destruct s; [congruence|]. apply then_ret_unfold.
Qed.

Lemma scan_events_found domain event post s w :
  is_expiration event = true ->
  event_date event = PStr s -> s <> "" ->
  writable domain s w ->
  scan_events domain (event :: post) w = (Return (PStr s), saved domain s w).
Proof.
  intros He Hd Hs Hw.
  rewrite (scan_events_dated domain event post s w He Hd Hs).
  now rewrite (save_to_cache_str domain s w Hw).
Qed.

(** C2, as amended.  On a cache miss, with a response whose [events] are
    objects, [get_domain_expiration] takes the first entry whose
    [eventAction] is "expiration" and whose [eventDate] is not empty: an
    expiration entry without a date is passed over, and the entries after
    the chosen one are not looked at.  When the cache file of the domain
    can be written, the date is saved to it and returned; when the
    directory cannot be made or the file cannot be opened or written, the
    run ends in state UNKNOWN with the text of that error, and no date is
    returned.  When no entry has both an action "expiration" and a date,
    the run ends in state UNKNOWN with a message that names the domain. *)
Theorem first_dated_expiration_wins (e : env) (domain : string) (w : world)
    (d : list (string * pyval)) (events : list pyval) :
  cache_miss domain w ->
  service e (rdap_url domain) = Json (PDict d) ->
  lookup_key "events" d = Some (PList events) ->
  let w1 := fetched (rdap_url domain) (consulted domain w) in
  (forall pre event post s,
      events = (pre ++ event :: post)%list ->
      forallb is_dict pre = true ->
      existsb dated_expiration pre = false ->
      is_expiration event = true ->
      event_date event = PStr s -> s <> "" ->
      (writable domain s w ->
       get_domain_expiration e domain w
       = (Return (PStr s), saved domain s w1))
      /\ (forall text,
            save_failure domain s w = Some text ->
            fst (get_domain_expiration e domain w) = SystemExit STATE_UNKNOWN
            /\ stdout (snd (get_domain_expiration e domain w))
               = stdout w +:+ lookup_error_message text +:+ newline
            /\ requested (snd (get_domain_expiration e domain w))
               = rdap_url domain :: requested w))
  /\ (forallb is_dict events = true ->
      existsb dated_expiration events = false ->
      get_domain_expiration e domain w
      = (SystemExit STATE_UNKNOWN, printed (not_found_message domain) w1)).
Proof.
  intros Hmiss Hs Hl w1.
  assert (Hfiles : files w1 = files w) by apply files_consulted.
  assert (Hout : stdout w1 = stdout w
                 /\ requested w1 = rdap_url domain :: requested w).
  { unfold w1, consulted.
    now destruct (cache_node domain w). }
  rewrite (get_domain_expiration_miss e domain w Hmiss).
  rewrite (query_rdap_events e domain _ d events Hs Hl).
  fold w1. unfold try_except. split.
  - intros pre event post s -> Hd Hx He Hdate Hne.
    rewrite (scan_events_skip domain pre _ w1 Hd Hx). split.
    + intros Hw. rewrite <- (writable_files domain s w w1 Hfiles) in Hw.
      now rewrite (scan_events_found domain event post s w1 He Hdate Hne Hw).
    + intros text Hf.
      rewrite <- (save_failure_files domain s w w1 Hfiles) in Hf.
      rewrite (scan_events_dated domain event post s w1 He Hdate Hne).
      destruct (save_to_cache_stopped domain s w1 text Hf)
        as (Hr & Hreq & Hstd).
      destruct (save_to_cache domain (PStr s) w1) as [r w2].
      cbn [fst snd] in Hr, Hreq, Hstd. subst r.
      rewrite die_eq. cbn [fst snd printed stdout requested].
      destruct Hout as [Ho1 Ho2].
      now rewrite Hstd, Hreq, Ho1, Ho2.
  - intros Hd Hx.
    rewrite <- (app_nil_r events).
    now rewrite (scan_events_skip domain events [] w1 Hd Hx).
Qed.

Lemma first_dated_expiration_wins_witness :
  let e := answering UTC [event "registration" "2020-03-01T00:00:00Z";
                          event "expiration" "2025-03-01T00:00:00Z";
                          event "expiration" "2031-03-01T00:00:00Z"] in
  fst (get_domain_expiration e "example.com" quiet)
  = Return (PStr "2025-03-01T00:00:00Z")
  /\ get_domain_expiration (answering UTC []) "example.com" quiet
     = (SystemExit STATE_UNKNOWN,
        printed "UNKNOWN - Expiry date not found for example.com"
          (fetched "https://rdap.org/domain/example.com" quiet)).
Proof.
  intros e. split.
  - pose proof (first_dated_expiration_wins e "example.com" quiet
                  [("events", PList [event "registration" "2020-03-01T00:00:00Z";
                          event "expiration" "2025-03-01T00:00:00Z";
                          event "expiration" "2031-03-01T00:00:00Z"])] _
                  ltac:(vm_compute; exact I) eq_refl eq_refl) as [H _].
    destruct (H [event "registration" "2020-03-01T00:00:00Z"]
                (event "expiration" "2025-03-01T00:00:00Z")
                [event "expiration" "2031-03-01T00:00:00Z"]
                "2025-03-01T00:00:00Z" eq_refl eq_refl eq_refl eq_refl eq_refl
                ltac:(discriminate)) as [Hsaved _].
    rewrite (Hsaved eq_refl). reflexivity.
  - pose proof (first_dated_expiration_wins (answering UTC []) "example.com"
                  quiet [("events", PList [])] []
                  ltac:(vm_compute; exact I) eq_refl eq_refl) as [_ H].
    exact (H eq_refl eq_refl).
Defined.

(** C2, as stated, fails: when the first expiration entry has no date and a
    later one has, the later date is returned; the run does not end in
    state UNKNOWN. *)
Lemma undated_first_expiration_is_passed_over :
  let events := [undated "expiration";
                 event "expiration" "2031-03-01T00:00:00Z"] in
  let e := answering UTC events in
  cache_miss "example.com" quiet
  /\ first_expiration events = Some (undated "expiration")
  /\ event_date (undated "expiration") = PNone
  /\ fst (get_domain_expiration e "example.com" quiet)
     = Return (PStr "2031-03-01T00:00:00Z")
  /\ fst (get_domain_expiration e "example.com" quiet)
     <> SystemExit STATE_UNKNOWN.
Proof.
  intros events e.
  split; [vm_compute; exact I|].
  split; [reflexivity|]. split; [reflexivity|].
  assert (H : fst (get_domain_expiration e "example.com" quiet)
              = Return (PStr "2031-03-01T00:00:00Z"))
    by (vm_compute; reflexivity).
  split; [exact H | rewrite H; discriminate].
Qed.

(** ** Failures and the report *)

Lemma has_char_app x a b :
  has_char x (a +:+ b) = has_char x a || has_char x b.
Proof.
  induction a as [|c a IH]; simpl; [reflexivity|].
  now rewrite IH, orb_assoc.
Qed.

Lemma one_line_app a b : one_line (a +:+ b) = one_line a && one_line b.
Proof. unfold one_line. now rewrite has_char_app, negb_orb. Qed.

Lemma one_line_string_of_uint d :
  one_line (NilEmpty.string_of_uint d) = true.
Proof.
  unfold one_line.
  induction d; simpl; try reflexivity; exact IHd.
Qed.

Lemma one_line_str_of_int n : one_line (Py.str_of_int n) = true.
Proof.
  unfold Py.str_of_int. destruct (Z.to_int n) as [d|d]; simpl.
  - apply one_line_string_of_uint.
  - exact (one_line_string_of_uint d).
Qed.

Lemma parse_rdap_date_outcome e date_str w :
  (exists x, parse_rdap_date e date_str w = (Return x, w))
  \/ parse_rdap_date e date_str w
     = (SystemExit STATE_UNKNOWN, printed (invalid_date_message date_str) w).
Proof.
  unfold parse_rdap_date.
  repeat match goal with
         | |- context [match ?o with Some _ => _ | None => _ end] =>
             destruct o as [x|]; [left; exists (Py.int_of_float x); reflexivity|]
         end.
  right. reflexivity.
Qed.

(** C7, as amended.  The failures end the run at once in state UNKNOWN
    (exit code 3), with no second attempt.  A date string that matches
    neither format ends it with a message that includes the string; an
    error of the request or of the parsing of its body ends it, after that
    one request, with a message that embeds the error's text.  The message
    is a single line when the string, or the text, holds no line break. *)
Theorem failures_exit_unknown (e : env) :
  (forall date_str w,
      strptime date_str "%Y-%m-%dT%H:%M:%S.%fZ" = None ->
      strptime date_str "%Y-%m-%dT%H:%M:%SZ" = None ->
      parse_rdap_date e date_str w
      = (SystemExit 3,
         printed ("UNKNOWN - Invalid expiration date format: " +:+ date_str) w)
      /\ (one_line date_str = true ->
          one_line ("UNKNOWN - Invalid expiration date format: " +:+ date_str)
          = true))
  /\ (forall domain w text,
        cache_miss domain w ->
        service e (rdap_url domain) = RequestFails text
        \/ service e (rdap_url domain) = BodyNotJson text ->
        get_domain_expiration e domain w
        = (SystemExit 3,
           printed ("UNKNOWN - Error fetching RDAP data: " +:+ text)
             (fetched (rdap_url domain) (consulted domain w)))
        /\ (one_line text = true ->
            one_line ("UNKNOWN - Error fetching RDAP data: " +:+ text)
            = true)).
Proof.
  split.
  - intros date_str w HA HB. split.
    + unfold parse_rdap_date. rewrite HA, HB. reflexivity.
    + intros H. rewrite one_line_app, H. reflexivity.
  - intros domain w text Hmiss Hs. split.
    + rewrite (get_domain_expiration_miss e domain w Hmiss).
      now apply query_rdap_fails.
    + intros H. rewrite one_line_app, H. reflexivity.
Qed.

Lemma failures_exit_unknown_witness :
  parse_rdap_date (unreachable UTC "timed out") "not-a-date" quiet
  = (SystemExit 3,
     printed "UNKNOWN - Invalid expiration date format: not-a-date" quiet)
  /\ get_domain_expiration (unreachable UTC "timed out") "example.com" quiet
     = (SystemExit 3,
        printed "UNKNOWN - Error fetching RDAP data: timed out"
          (fetched "https://rdap.org/domain/example.com" quiet))
  /\ one_line "UNKNOWN - Error fetching RDAP data: timed out" = true.
Proof.
  pose proof (failures_exit_unknown (unreachable UTC "timed out")) as [HA HB].
  destruct (HA "not-a-date" quiet ltac:(vm_compute; reflexivity)
              ltac:(vm_compute; reflexivity)) as [H1 _].
  destruct (HB "example.com" quiet "timed out"
              ltac:(vm_compute; exact I) ltac:(left; reflexivity))
    as [H2 H3].
  split; [exact H1|]. split; [exact H2 | exact (H3 eq_refl)].
Defined.

(** C7, as stated, fails: a date string with a line break in it, as the
    service may send it, matches neither format, and the message that
    includes it is two lines long. *)
Lemma invalid_date_message_on_two_lines :
  let date_str := "soon" +:+ newline +:+ "or later" in
  let e := answering UTC [event "expiration" date_str] in
  let run := main e (mkArgs "example.com" 30 10) quiet in
  strptime date_str "%Y-%m-%dT%H:%M:%S.%fZ" = None
  /\ strptime date_str "%Y-%m-%dT%H:%M:%SZ" = None
  /\ fst run = SystemExit 3
  /\ stdout (snd run)
     = "UNKNOWN - Invalid expiration date format: soon" +:+ newline
         +:+ "or later" +:+ newline
  /\ count_lines (stdout (snd run)) = 2%nat.
Proof.
  intros date_str e run.
  split; [vm_compute; reflexivity|]. split; [vm_compute; reflexivity|].
  split; [vm_compute; reflexivity|]. split; vm_compute; reflexivity.
Qed.

Lemma get_domain_expiration_outcome e domain w :
  match fst (get_domain_expiration e domain w) with
  | Return v =>
      (exists s, v = PStr s /\ s <> "")
      /\ stdout (snd (get_domain_expiration e domain w)) = stdout w
  | Raise text =>
      cache_raises domain w text
      /\ snd (get_domain_expiration e domain w) = ticked w
  | SystemExit state =>
      state = STATE_UNKNOWN
      /\ (stdout (snd (get_domain_expiration e domain w))
          = stdout w +:+ not_found_message domain +:+ newline
          \/ exists text,
              stdout (snd (get_domain_expiration e domain w))
              = stdout w +:+ lookup_error_message text +:+ newline)
  end.
Proof.
  rewrite get_domain_expiration_unfold.
  assert (Hq : forall w0, stdout w0 = stdout w ->
    match fst (query_rdap e domain w0) with
    | Return v =>
        (exists s, v = PStr s /\ s <> "")
        /\ stdout (snd (query_rdap e domain w0)) = stdout w
    | Raise text =>
        cache_raises domain w text /\ snd (query_rdap e domain w0) = ticked w
    | SystemExit state =>
        state = STATE_UNKNOWN
        /\ (stdout (snd (query_rdap e domain w0))
            = stdout w +:+ not_found_message domain +:+ newline
            \/ exists text,
                stdout (snd (query_rdap e domain w0))
                = stdout w +:+ lookup_error_message text +:+ newline)
    end).
  { intros w0 Hw0. pose proof (query_rdap_outcome e domain w0) as [_ H].
    rewrite Hw0 in H.
    destruct (fst (query_rdap e domain w0)); [exact H | destruct H | exact H]. }
  destruct (cache_node domain w) as [[f|changed error]|] eqn:Ec;
    [| |now apply Hq]; cbn [node_mtime].
  - destruct (Py.float_lt _ _); [|now apply Hq].
    cbv zeta. destruct (Py.is_empty _) eqn:E; [now apply Hq|].
    simpl. split; [|reflexivity].
    eexists. split; [reflexivity|]. intros E'. rewrite E' in E. discriminate E.
  - destruct (Py.float_lt _ _) eqn:Ef; [|now apply Hq].
    cbn [fst snd]. split; [|reflexivity].
    exists changed. split; [exact Ec|].
    apply float_lt_iff. exact Ef.
Qed.

Lemma verdict_outcome args date_str days :
  verdict args date_str days
  = (exit_code (outcome_status args (Verdict date_str days)),
     outcome_message args (Verdict date_str days)).
Proof.
  unfold verdict, outcome_message, outcome_status, outcome_details.
  destruct (days <? 0); [reflexivity|].
  destruct (days <? critical args); [reflexivity|].
  destruct (days <? warning args); reflexivity.
Qed.

Lemma outcome_message_one_line args o :
  one_line (outcome_message args o)
  = forallb one_line (outcome_inputs args o).
Proof.
  unfold outcome_message.
  destruct o as [text| |date_str|date_str days]; simpl outcome_inputs;
    cbn [forallb]; rewrite ?andb_true_r.
  - cbn [outcome_status outcome_details status_name].
    now rewrite !one_line_app.
  - cbn [outcome_status outcome_details status_name].
    now rewrite !one_line_app.
  - cbn [outcome_status outcome_details status_name].
    now rewrite !one_line_app.
  - rewrite !one_line_app.
    assert (Hs : one_line (status_name (outcome_status args
                                          (Verdict date_str days))) = true)
      by (now destruct (outcome_status _ _)).
    rewrite Hs. cbn [outcome_details].
    destruct (days <? 0); rewrite !one_line_app, one_line_str_of_int;
      simpl; now rewrite !andb_true_r.
Qed.

(** [main], case by case. *)
Lemma main_unfold e args w :
  main e args w =
  match get_domain_expiration e (domain args) w with
  | (Return (PStr date_str), w1) =>
      match parse_rdap_date e date_str w1 with
      | (Return exp_seconds, w2) =>
          let v := verdict args date_str
                     (days_left exp_seconds (Py.int_of_float (clock w2 O))) in
          (SystemExit (fst v), printed (snd v) (ticked w2))
      | (Raise text, w2) => (Raise text, w2)
      | (SystemExit state, w2) => (SystemExit state, w2)
      end
  | (Return v, w1) =>
      (Raise ("strptime() argument 1 must be str, not " +:+ type_name v), w1)
  | (Raise text, w1) => (Raise text, w1)
  | (SystemExit state, w1) => (SystemExit state, w1)
  end.
Proof.
  unfold main, bind at 1.
  destruct (get_domain_expiration e (domain args) w) as [[v|text|state] w1];
    try reflexivity.
  destruct v; reflexivity.
Qed.

Lemma main_outcome e args w :
  (exists o w',
      main e args w = (SystemExit (exit_code (outcome_status args o)), w')
      /\ stdout w' = stdout w +:+ outcome_message args o +:+ newline)
  \/ (exists text,
        cache_raises (domain args) w text
        /\ main e args w = (Raise text, ticked w)).
Proof.
  pose proof (get_domain_expiration_outcome e (domain args) w) as Hg.
  rewrite main_unfold.
  destruct (get_domain_expiration e (domain args) w) as [[v|text|state] w1];
    simpl in Hg.
  - left. destruct Hg as [(date_str & -> & _) Hout].
    destruct (parse_rdap_date_outcome e date_str w1) as [[x ->] | ->].
    + exists (Verdict date_str
                (days_left x (Py.int_of_float (clock w1 O)))).
      cbv zeta. rewrite verdict_outcome. cbn [fst snd].
      eexists. split; [reflexivity|].
      cbn [printed stdout ticked]. now rewrite Hout.
    + exists (InvalidDate date_str). eexists. split; [reflexivity|].
      cbn [printed stdout]. now rewrite Hout.
  - right. destruct Hg as [Hc Hw]. cbn [snd] in Hw. subst w1.
    exists text. split; [exact Hc | reflexivity].
  - left. destruct Hg as [-> [Hout | [text Hout]]].
    + exists NoExpiration. eexists. split; [reflexivity|]. exact Hout.
    + exists (LookupFailed text). eexists. split; [reflexivity|]. exact Hout.
Qed.

Lemma cache_raises_unique domain w text text' :
  cache_raises domain w text -> cache_raises domain w text' -> text = text'.
Proof. intros (c & E & _) (c' & E' & _). congruence. Qed.

(** C8, as amended.  A run of [main] ends in one of two ways.  When the
    cache path of the domain leads to something fresh that does not read as
    text (a directory, a file that may not be opened, bytes that do not
    decode), the exception of the read is caught nowhere: the run prints
    nothing on standard output and ends with that exception (a traceback
    and exit code 1).  Every other run ends in an exit, after printing one
    message and a line feed: the message is the status name in capitals,
    " - " and details, and the exit code is the status's (0 for OK, 1 for
    WARNING, 2 for CRITICAL, 3 for UNKNOWN).  What is printed is one line
    exactly when the strings the message embeds (the domain, the date
    string, the error's text) hold no line break. *)
Theorem every_run_reports (e : env) (args : arguments) (w : world) :
  (forall text,
      cache_raises (domain args) w text ->
      fst (main e args w) = Raise text
      /\ stdout (snd (main e args w)) = stdout w
      /\ requested (snd (main e args w)) = requested w)
  /\ ((forall text, ~ cache_raises (domain args) w text) ->
      exists o : outcome,
        fst (main e args w) = SystemExit (exit_code (outcome_status args o))
        /\ stdout (snd (main e args w))
           = stdout w
               +:+ (status_name (outcome_status args o) +:+ " - "
                      +:+ outcome_details args o)
               +:+ newline
        /\ one_line (status_name (outcome_status args o) +:+ " - "
                       +:+ outcome_details args o)
           = forallb one_line (outcome_inputs args o)).
Proof.
  destruct (main_outcome e args w)
    as [(o & w' & E & Hout) | (text' & Hc & E)]; rewrite E; split.
  - intros text (changed & Hn & Hfresh).
    exfalso. revert E. unfold main, bind at 1.
    rewrite get_domain_expiration_unfold, Hn. cbn [node_mtime].
    apply float_lt_iff in Hfresh. unfold freshness_window in Hfresh.
    change (inject_Z CACHE_AGE) with (inject_Z 28800). rewrite Hfresh.
    discriminate.
  - intros _. exists o. split; [reflexivity|]. split; [exact Hout|].
    apply outcome_message_one_line.
  - intros text Hc'.
    rewrite (cache_raises_unique _ _ _ _ Hc' Hc). now repeat split.
  - intros Hno. destruct (Hno text' Hc).
Qed.

Lemma every_run_reports_witness :
  let args := mkArgs "example.com" 30 10 in
  let w := with_node "example.com"
             (Unreadable (inject_Z 1739990000)
                "[Errno 21] Is a directory: '/tmp/check_domain_cache/example.com.cache'")
             quiet in
  let e := unreachable UTC "timed out" in
  (fst (main e args w)
   = Raise "[Errno 21] Is a directory: '/tmp/check_domain_cache/example.com.cache'"
   /\ stdout (snd (main e args w)) = ""
   /\ requested (snd (main e args w)) = [])
  /\ exists o : outcome,
       fst (main e args quiet) = SystemExit (exit_code (outcome_status args o))
       /\ stdout (snd (main e args quiet))
          = stdout quiet
              +:+ (status_name (outcome_status args o) +:+ " - "
                     +:+ outcome_details args o)
              +:+ newline
       /\ one_line (status_name (outcome_status args o) +:+ " - "
                      +:+ outcome_details args o)
          = forallb one_line (outcome_inputs args o).
Proof.
  intros args w e. split.
  - apply (proj1 (every_run_reports e args w)).
    exists (inject_Z 1739990000). split; [reflexivity|].
    vm_compute. reflexivity.
  - apply (proj2 (every_run_reports e args quiet)).
    intros text (changed & Hn & _). discriminate Hn.
Defined.

(** C8, as stated, fails: for a domain argument with a line break in it,
    here answered from a fresh cache file, the run prints two lines. *)
Lemma report_on_two_lines :
  let name := "example" +:+ newline +:+ ".com" in
  let args := mkArgs name 30 10 in
  let w := with_cache name "2025-03-01T00:00:00Z" 1739990000 quiet in
  let run := main (unreachable UTC "timed out") args w in
  fst run = SystemExit 2
  /\ requested (snd run) = []
  /\ stdout (snd run)
     = "CRITICAL - Domain example" +:+ newline
         +:+ ".com will expire in 9 days (2025-03-01T00:00:00Z)." +:+ newline
  /\ count_lines (stdout (snd run)) = 2%nat.
Proof.
  intros name args w run.
  split; [vm_compute; reflexivity|]. split; [vm_compute; reflexivity|].
  split; vm_compute; reflexivity.
Qed.

Import SpecDate.

(** ** The date parser and the local time zone *)

Ltac decide_test :=
  match goal with
  | |- context [?a <=? ?b] =>
      replace (a <=? b) with true by (symmetry; apply Z.leb_le; lia)
  | |- context [?a =? ?b] =>
      replace (a =? b) with true by (symmetry; apply Z.eqb_eq; lia)
  end.

(** In a zone with a constant offset from UTC, the wall-clock fields are
    taken for local time: the result lies [off] seconds before the epoch
    second of the same fields read as UTC. *)
Lemma local_to_seconds_fixed_offset (off : Z) (dt : datetime) :
  let t := utc_to_seconds (year dt) (month dt) (day dt)
                          (hour dt) (minute dt) (second dt) in
  min_seconds <= t + off <= max_seconds ->
  min_seconds + max_fold_seconds <= t <= max_seconds ->
  local_to_seconds (fixed_offset off) dt = Some (t - off).
Proof.
  intros t H1 H2. unfold local_to_seconds, local, fixed_offset. fold t.
  unfold max_fold_seconds in *. clearbody t.
  generalize dependent min_seconds. generalize dependent max_seconds.
  intros hi lo H1 H2. cbv zeta.
  repeat (decide_test; cbn [andb mbind option_bind]).
  f_equal. lia.
Qed.

Lemma timestamp_fixed_offset (off : Z) (dt : datetime) :
  let t := utc_to_seconds (year dt) (month dt) (day dt)
                          (hour dt) (minute dt) (second dt) in
  min_seconds <= t + off <= max_seconds ->
  min_seconds + max_fold_seconds <= t <= max_seconds ->
  timestamp (fixed_offset off) dt
  = Some (inject_Z (utc_epoch_second dt - off)
          + (microsecond dt # 1000000))%Q.
Proof.
  intros t H1 H2. unfold timestamp.
  rewrite (local_to_seconds_fixed_offset off dt H1 H2).
  cbn [mbind option_bind]. unfold utc_epoch_second. fold t.
  do 3 f_equal. lia.
Qed.

(** C1 fails on the code.  The parsed fields carry no time zone, and
    [timestamp] reads them in the local zone of the process: one hour east
    of UTC, both forms of 2025-03-01T00:00:00 give 1740783600, an hour
    before the epoch second 1740787200 of that instant in UTC. *)
Theorem parse_rdap_date_reads_local_time :
  let e := unreachable (fixed_offset 3600) "" in
  strptime "2025-03-01T00:00:00Z" "%Y-%m-%dT%H:%M:%SZ"
  = Some (mkDatetime 2025 3 1 0 0 0 0)
  /\ utc_epoch_second (mkDatetime 2025 3 1 0 0 0 0) = 1740787200
  /\ fst (parse_rdap_date e "2025-03-01T00:00:00Z" quiet)
     = Return 1740783600
  /\ fst (parse_rdap_date e "2025-03-01T00:00:00.123456Z" quiet)
     = Return 1740783600.
Proof.
  intros e.
  split; [vm_compute; reflexivity|]. split; [reflexivity|].
  split; vm_compute; reflexivity.
Qed.

(** Where local time is UTC, the two strings of the specification do give
    the epoch second of the instant. *)
Example parse_rdap_date_in_utc :
  let e := unreachable UTC "" in
  fst (parse_rdap_date e "2025-03-01T00:00:00Z" quiet)
     = Return 1740787200
  /\ fst (parse_rdap_date e "2025-03-01T00:00:00.123456Z" quiet)
     = Return 1740787200.
Proof. split; vm_compute; reflexivity. Qed.

(** Before 1970 the fraction is cut toward zero, that is upward, and the
    first day of year 1 is refused as out of range. *)
Example parse_rdap_date_edges :
  let e := unreachable UTC "" in
  fst (parse_rdap_date e "1969-12-31T23:59:59Z" quiet) = Return (-1)
  /\ fst (parse_rdap_date e "1969-12-31T23:59:59.500000Z" quiet)
     = Return 0
  /\ fst (parse_rdap_date e "0001-01-01T00:00:00Z" quiet) = SystemExit 3.
Proof.
  split; [vm_compute; reflexivity|]. split; vm_compute; reflexivity.
Qed.

(** * Further properties of the script *)

(** ** The verdict as a function of the days left *)

(** X1.  More days left never give a worse state: the exit code does not grow
    with [days_left], whatever the thresholds. *)
Theorem verdict_monotone (args : arguments) (date date' : string)
    (d1 d2 : Z) :
  d1 <= d2 ->
  fst (verdict args date' d2) <= fst (verdict args date d1).
Proof.
  intros Hle. unfold verdict.
  repeat match goal with
         | |- context [?a <? ?b] => destruct (Z.ltb_spec a b)
         end; cbn [fst]; unfold STATE_OK, STATE_WARNING, STATE_CRITICAL; lia.
Qed.

Lemma verdict_monotone_witness :
  fst (verdict (mkArgs "example.com" 30 10) "b" 12)
  <= fst (verdict (mkArgs "example.com" 30 10) "a" 3).
Proof. apply verdict_monotone. lia. Defined.

(** X2.  With a warning threshold that is not above the critical one, the state
    WARNING is never reported. *)
Theorem warning_unreachable (args : arguments) (date : string) (dl : Z) :
  warning args <= critical args ->
  fst (verdict args date dl) <> STATE_WARNING.
Proof.
  intros Hle. unfold verdict.
  repeat match goal with
         | |- context [?a <? ?b] => destruct (Z.ltb_spec a b)
         end; cbn [fst]; try discriminate. lia.
Qed.

Lemma warning_unreachable_witness :
  fst (verdict (mkArgs "example.com" 10 30) "a" 20) <> STATE_WARNING.
Proof. apply warning_unreachable. simpl. lia. Defined.

(** X3.  The run reports the domain as expired exactly when the expiration lies
    strictly before the present second; an expiration less than a day
    ahead, the present second included, is day 0, and the count of days
    since the expiration is rounded up. *)
Theorem expired_iff_past (exp_seconds now_seconds : Z) :
  (days_left exp_seconds now_seconds < 0 <-> exp_seconds < now_seconds)
  /\ (days_left exp_seconds now_seconds = 0
      <-> 0 <= exp_seconds - now_seconds < 86400)
  /\ (exp_seconds < now_seconds ->
      86400 * (- days_left exp_seconds now_seconds - 1)
      < now_seconds - exp_seconds
      <= 86400 * (- days_left exp_seconds now_seconds)).
Proof.
  unfold days_left.
  pose proof (Z.div_mod (exp_seconds - now_seconds) 86400) as Hdm.
  pose proof (Z.mod_pos_bound (exp_seconds - now_seconds) 86400) as Hb.
  repeat split; intros; lia.
Qed.

Lemma expired_iff_past_witness :
  86400 * (- days_left 0 1 - 1) < 1 - 0 <= 86400 * (- days_left 0 1).
Proof.
  apply (proj2 (proj2 (expired_iff_past 0 1))). lia.
Defined.
Import SpecPaths.

(** ** What a run touches *)









(** After the lookup, [main] changes neither the files nor the list of
    requests. *)
Lemma main_after_lookup e args w :
  files (snd (main e args w))
  = files (snd (get_domain_expiration e (domain args) w))
  /\ requested (snd (main e args w))
     = requested (snd (get_domain_expiration e (domain args) w)).
Proof.
  rewrite main_unfold.
  destruct (get_domain_expiration e (domain args) w) as [[v|text|state] w1];
    try (split; reflexivity).
  destruct v as [ |b|n|x|date_str|l|d]; try (split; reflexivity).
  destruct (parse_rdap_date_outcome e date_str w1) as [[x ->] | ->];
    split; reflexivity.
Qed.



(** Two names for one file: the domains [example.com] and [./example.com]
    have different cache paths that lead to the same file, and a run for
    the second overwrites the stale entry of the first. *)
Example dot_slash_is_the_same_file :
  let e := answering UTC [event "expiration" "2031-03-01T00:00:00Z"] in
  let w := with_cache "example.com" "2026-01-01T00:00:00Z" 1730000000 quiet in
  let run := main e (mkArgs "./example.com" 30 10) w in
  get_cache_file "./example.com" <> get_cache_file "example.com"
  /\ cache_name "./example.com" w = cache_name "example.com" w
  /\ cache_entry "example.com" w
     = Some (mkFile (inject_Z 1730000000) "2026-01-01T00:00:00Z")
  /\ cache_entry "example.com" (snd run)
     = Some (mkFile (inject_Z 1740000001) "2031-03-01T00:00:00Z").
Proof.
  intros e w run. split; [discriminate|].
  repeat split; vm_compute; reflexivity.
Qed.

(** ** Names that start with a slash *)

Lemma get_cache_file_relative domain :
  absolute domain = false ->
  get_cache_file domain = CACHE_DIR +:+ "/" +:+ domain +:+ ".cache".
Proof.
  unfold get_cache_file, path_join, absolute.
  destruct domain as [|c d]; [reflexivity|]. simpl. now intros ->.
Qed.

(** X6.  A name that starts with a slash is taken as a path of its own, outside
    the cache directory: the domain made of the cache directory, a slash
    and a second name shares the second name's cache file. *)
Theorem absolute_name_shares_cache_file (name : string) :
  absolute name = false ->
  get_cache_file (CACHE_DIR +:+ "/" +:+ name) = get_cache_file name.
Proof.
  intros H. now rewrite (get_cache_file_relative name H).
Qed.

Lemma absolute_name_shares_cache_file_witness :
  get_cache_file "/tmp/check_domain_cache/example.com"
  = get_cache_file "example.com".
Proof.
  apply (absolute_name_shares_cache_file "example.com"). reflexivity.
Defined.

(** ** A lookup and the run after it *)





(** ** Answers of the service that are not as expected *)

(** X8.  An expiration entry whose date counts as true but is not a string
    ends the run in state UNKNOWN.  When the cache file of the domain can
    be opened for writing, the message holds the text of the [TypeError]
    of [f.write], and the file is left behind, empty; when the directory
    cannot be made or the file cannot be opened, the message holds the text
    of that error, and no file is touched. *)
Theorem date_that_is_no_string (e : env) (domain : string) (w : world)
    (d : list (string * pyval)) (pre post : list pyval) (event : pyval) :
  cache_miss domain w ->
  service e (rdap_url domain) = Json (PDict d) ->
  lookup_key "events" d = Some (PList (pre ++ event :: post)%list) ->
  forallb is_dict pre = true ->
  existsb dated_expiration pre = false ->
  dated_expiration event = true ->
  (forall s, event_date event <> PStr s) ->
  let w1 := fetched (rdap_url domain) (consulted domain w) in
  (openable domain w ->
   get_domain_expiration e domain w
   = (SystemExit 3,
      printed ("UNKNOWN - Error fetching RDAP data: "
                 +:+ "write() argument must be str, not "
                 +:+ type_name (event_date event))
        (emptied domain w1)))
  /\ (forall text,
        open_failure domain w = Some text ->
        get_domain_expiration e domain w
        = (SystemExit 3,
           printed ("UNKNOWN - Error fetching RDAP data: " +:+ text) w1)).
Proof.
  intros Hmiss Hs Hl Hd Hx He Hns w1.
  assert (Hfiles : files w1 = files w) by apply files_consulted.
  rewrite (get_domain_expiration_miss e domain w Hmiss).
  rewrite (query_rdap_events e domain _ d _ Hs Hl). fold w1.
  unfold try_except.
  rewrite (scan_events_skip domain pre _ _ Hd Hx), scan_events_step.
  destruct event; try discriminate He.
  rewrite He, then_ret_unfold, save_to_cache_unfold, Hfiles.
  unfold openable, open_failure.
  destruct (makedirs_error (files w)) as [error|].
  { split; [discriminate | now intros text [= ->]]. }
  destruct (open_error (files w) (get_cache_file domain)) as [error|].
  { split; [discriminate | now intros text [= ->]]. }
  split; [intros _ | discriminate].
  destruct (event_date (PDict d0)) as [| | | |s| |] eqn:Ed;
    try reflexivity.
  now destruct (Hns s).
Qed.

Lemma date_that_is_no_string_witness :
  let events := [PDict [("eventAction", PStr "expiration");
                        ("eventDate", PInt 1740787200)]] in
  let e := answering UTC events in
  get_domain_expiration e "example.com" quiet
  = (SystemExit 3,
     printed "UNKNOWN - Error fetching RDAP data: write() argument must be str, not int"
       (emptied "example.com"
          (fetched "https://rdap.org/domain/example.com" quiet))).
Proof.
  intros events e.
  apply (proj1 (date_that_is_no_string e "example.com" quiet
           [("events", PList events)] [] []
           (PDict [("eventAction", PStr "expiration");
                   ("eventDate", PInt 1740787200)])
           ltac:(vm_compute; exact I) eq_refl eq_refl eq_refl eq_refl
           eq_refl ltac:(discriminate))).
  reflexivity.
Defined.

(** X9.  A body that is no object, or whose [events] cannot be iterated, ends
    the run in state UNKNOWN with the text of the error; a body without the
    key [events] ends it with the message that no expiry date was found.
    In neither case is a file written. *)
Theorem unexpected_body (e : env) (domain : string) (w : world)
    (data : pyval) :
  cache_miss domain w ->
  service e (rdap_url domain) = Json data ->
  let w1 := fetched (rdap_url domain) (consulted domain w) in
  (is_dict data = false ->
   get_domain_expiration e domain w
   = (SystemExit 3,
      printed ("UNKNOWN - Error fetching RDAP data: '" +:+ type_name data
                 +:+ "' object has no attribute 'get'") w1))
  /\ (forall d, data = PDict d -> lookup_key "events" d = None ->
      get_domain_expiration e domain w
      = (SystemExit 3,
         printed ("UNKNOWN - Expiry date not found for " +:+ domain) w1))
  /\ (forall d events text,
        data = PDict d -> lookup_key "events" d = Some events ->
        iter events = inr text ->
        get_domain_expiration e domain w
        = (SystemExit 3,
           printed ("UNKNOWN - Error fetching RDAP data: " +:+ text) w1)).
Proof.
  intros Hmiss Hs w1.
  rewrite (get_domain_expiration_miss e domain w Hmiss).
  rewrite query_rdap_unfold, Hs. fold w1. cbv zeta.
  split; [|split].
  - intros Hd. destruct data; try discriminate Hd; reflexivity.
  - intros d -> Hl. cbn. rewrite Hl. reflexivity.
  - intros d events text -> Hl Hi. cbn. rewrite Hl, Hi. reflexivity.
Qed.

Lemma unexpected_body_witness :
  let e := mkEnv UTC (fun _ => Json (PList [])) in
  let e' := mkEnv UTC (fun _ => Json (PDict [("errorCode", PInt 404)])) in
  let e'' := mkEnv UTC (fun _ => Json (PDict [("events", PNone)])) in
  let w1 := fetched "https://rdap.org/domain/example.com" quiet in
  get_domain_expiration e "example.com" quiet
  = (SystemExit 3,
     printed "UNKNOWN - Error fetching RDAP data: 'list' object has no attribute 'get'" w1)
  /\ get_domain_expiration e' "example.com" quiet
     = (SystemExit 3,
        printed "UNKNOWN - Expiry date not found for example.com" w1)
  /\ get_domain_expiration e'' "example.com" quiet
     = (SystemExit 3,
        printed "UNKNOWN - Error fetching RDAP data: 'NoneType' object is not iterable" w1).
Proof.
  intros e e' e'' w1. split; [|split].
  - apply (proj1 (unexpected_body e "example.com" quiet (PList [])
                    ltac:(vm_compute; exact I) eq_refl)). reflexivity.
  - apply (proj1 (proj2 (unexpected_body e' "example.com" quiet _
                    ltac:(vm_compute; exact I) eq_refl))
             [("errorCode", PInt 404)]); reflexivity.
  - apply (proj2 (proj2 (unexpected_body e'' "example.com" quiet _
                    ltac:(vm_compute; exact I) eq_refl))
             [("events", PNone)] PNone); reflexivity.
Defined.
Import SpecIso.

(** ** The date parser on well-formed timestamps *)

Lemma ord_digit k : 0 <= k <= 9 -> Py.ord (digit k) = 48 + k.
Proof.
  intros Hk. unfold Py.ord, digit.
  rewrite N_ascii_embedding by lia. lia.
Qed.

Lemma isdigit_digit k : 0 <= k <= 9 -> Py.isdigit (digit k) = true.
Proof.
  intros Hk. unfold Py.isdigit. rewrite (ord_digit k Hk).
  apply andb_true_iff. split; apply Z.leb_le; lia.
Qed.

Lemma isspace_digit k : 0 <= k <= 9 -> Py.isspace (digit k) = false.
Proof.
  intros Hk. unfold Py.isspace. rewrite (ord_digit k Hk). cbv zeta.
  repeat match goal with
         | |- context [?a <=? ?b] => destruct (Z.leb_spec a b); try lia
         | |- context [?a =? ?b] => destruct (Z.eqb_spec a b); try lia
         end; reflexivity.
Qed.

Lemma lit_matches_refl c : lit_matches c c = true.
Proof. apply Z.eqb_refl. Qed.

Lemma lit_matches_digit c k :
  Py.isdigit c = false -> 0 <= k <= 9 -> lit_matches c (digit k) = false.
Proof.
  unfold lit_matches, lower, Py.isdigit. intros Hc Hk.
  rewrite (ord_digit k Hk).
  apply andb_false_iff in Hc.
  repeat match goal with
         | |- context [?a <=? ?b] => destruct (Z.leb_spec a b)
         end; cbn [andb]; apply Z.eqb_neq;
    destruct Hc as [Hc | Hc]; apply Z.leb_gt in Hc; lia.
Qed.

Ltac digit_bound := Z.div_mod_to_equations; lia.

Lemma lit_matches_not_digit c x :
  Py.isdigit c = false -> Py.isdigit x = true -> lit_matches c x = false.
Proof.
  unfold lit_matches, lower, Py.isdigit. intros Hc Hx.
  apply andb_true_iff in Hx as [Hx1%Z.leb_le Hx2%Z.leb_le].
  apply andb_false_iff in Hc.
  cbv zeta.
  repeat match goal with
         | |- context [?a <=? ?b] => destruct (Z.leb_spec a b)
         end; cbn [andb]; apply Z.eqb_neq;
    destruct Hc as [Hc | Hc]; apply Z.leb_gt in Hc; lia.
Qed.

Lemma match_alt_app a p s :
  (length a <= String.length p)%nat ->
  match_alt a (p +:+ s)
  = match match_alt a p with
    | Some (txt, rest) => Some (txt, rest +:+ s)
    | None => None
    end.
Proof.
  revert p. induction a as [|cl a IH]; intros p Hp; [reflexivity|].
  destruct p as [|x p]; [cbn in Hp; lia|].
  simpl. destruct (cl x); [|reflexivity].
  rewrite IH by (cbn in Hp; lia).
  destruct (match_alt a p) as [[t r]|]; reflexivity.
Qed.

Lemma match_directive_app d p s :
  Forall (fun a => (length a <= String.length p)%nat) (directive_regex d) ->
  match_directive d (p +:+ s)
  = map (fun '(txt, rest) => (txt, rest +:+ s)) (match_directive d p).
Proof.
  unfold match_directive.
  induction 1 as [|a l Ha _ IH]; [reflexivity|].
  cbn [omap list_omap]. rewrite match_alt_app by exact Ha.
  destruct (match_alt a p) as [[t r]|]; cbn [map]; rewrite IH; reflexivity.
Qed.

(** The two-digit fields and the values they take. *)
Lemma two_digit_fields_checked :
  forallb
    (fun '(d, lo, hi) =>
       forallb
         (fun k =>
            let n := lo + Z.of_nat k in
            match match_directive d (two_digits n) with
            | (txt, EmptyString) :: l =>
                String.eqb txt (two_digits n)
                && forallb (fun '(_, r) =>
                              match r with
                              | String x _ => Py.isdigit x
                              | EmptyString => false
                              end) l
            | _ => false
            end)
         (seq 0 (Z.to_nat (hi - lo + 1))))
    [(dm, 1, 12); (dd, 1, 31); (dH, 0, 23); (dM, 0, 59); (dS, 0, 59)]
  = true.
Proof. vm_compute. reflexivity. Qed.

Lemma match_directive_two_digits d lo hi n :
  In (d, lo, hi) [(dm, 1, 12); (dd, 1, 31); (dH, 0, 23); (dM, 0, 59);
                  (dS, 0, 59)] ->
  lo <= n <= hi ->
  exists l,
    match_directive d (two_digits n) = (two_digits n, "") :: l
    /\ Forall (fun '(_, r) =>
                 exists x r', r = String x r' /\ Py.isdigit x = true) l.
Proof.
  intros Hin Hn.
  pose proof two_digit_fields_checked as H.
  rewrite forallb_forall in H. specialize (H _ Hin). cbv beta iota in H.
  rewrite forallb_forall in H.
  specialize (H (Z.to_nat (n - lo))).
  replace (lo + Z.of_nat (Z.to_nat (n - lo))) with n in H by lia.
  cbv zeta in H.
  assert (Hk : In (Z.to_nat (n - lo)) (seq 0 (Z.to_nat (hi - lo + 1))))
    by (apply in_seq; lia).
  specialize (H Hk).
  destruct (match_directive d (two_digits n)) as [|[txt [|? ?]] l];
    try discriminate.
  apply andb_true_iff in H as [Ht Hl]. apply String.eqb_eq in Ht. subst txt.
  exists l. split; [reflexivity|].
  apply Forall_forall. intros [t r] Hr%list_elem_of_In.
  rewrite forallb_forall in Hl. specialize (Hl _ Hr). cbv beta iota in Hl.
  destruct r as [|x r']; [discriminate|]. now exists x, r'.
Qed.

Lemma match_items_shorter d c its s l :
  Py.isdigit c = false ->
  Forall (fun '(_, r) =>
            exists x r', r = String x r' /\ Py.isdigit x = true) l ->
  flat_map
    (fun '(txt, rest) =>
       map (fun '(groups, r) => ((d, txt) :: groups, r))
           (match_items (Lit c :: its) rest))
    (map (fun '(txt, rest) => (txt, rest +:+ s)) l)
  = [].
Proof.
  intros Hc. induction 1 as [|[t r] l (x & r' & -> & Hx) _ IH]; [reflexivity|].
  simpl. rewrite (lit_matches_not_digit c x Hc Hx). exact IH.
Qed.

Lemma match_items_two_digits d lo hi n c its x rest :
  In (d, lo, hi) [(dm, 1, 12); (dd, 1, 31); (dH, 0, 23); (dM, 0, 59);
                  (dS, 0, 59)] ->
  lo <= n <= hi ->
  Py.isdigit c = false ->
  match_items (Dir d :: Lit c :: its) (two_digits n +:+ String x rest)
  = if lit_matches c x
    then map (fun '(groups, r) => ((d, two_digits n) :: groups, r))
             (match_items its rest)
    else [].
Proof.
  intros Hin Hn Hc.
  destruct (match_directive_two_digits d lo hi n Hin Hn) as (l & E & Hl).
  change (match_items (Dir d :: Lit c :: its) (two_digits n +:+ String x rest))
    with (flat_map
            (fun '(txt, rest) =>
               map (fun '(groups, r) => ((d, txt) :: groups, r))
                   (match_items (Lit c :: its) rest))
            (match_directive d (two_digits n +:+ String x rest))).
  rewrite match_directive_app.
  - rewrite E. cbn [map flat_map].
    rewrite (match_items_shorter d c its (String x rest) l Hc Hl).
    rewrite app_nil_r. simpl.
    destruct (lit_matches c x); reflexivity.
  - simpl in Hin.
    repeat (destruct Hin as [Hin|Hin]; [inversion Hin; subst d|]);
      try contradiction;
      repeat constructor.
Qed.

Lemma match_items_Dir d its s :
  match_items (Dir d :: its) s
  = flat_map
      (fun '(txt, rest) =>
         map (fun '(groups, r) => ((d, txt) :: groups, r))
             (match_items its rest))
      (match_directive d s).
Proof. reflexivity. Qed.

Lemma match_items_Lit c its x s :
  match_items (Lit c :: its) (String x s)
  = if lit_matches c x then match_items its s else [].
Proof. reflexivity. Qed.

Lemma match_directive_dY a b c d s :
  Py.isdigit a = true -> Py.isdigit b = true ->
  Py.isdigit c = true -> Py.isdigit d = true ->
  match_directive dY (String a (String b (String c (String d s))))
  = [(String a (String b (String c (String d ""))), s)].
Proof.
  intros Ha Hb Hc Hd. unfold match_directive, directive_regex.
  cbn [omap list_omap match_alt]. rewrite Ha, Hb, Hc, Hd. reflexivity.
Qed.

Lemma match_directive_df a b c d e f s :
  Py.isdigit a = true -> Py.isdigit b = true -> Py.isdigit c = true ->
  Py.isdigit d = true -> Py.isdigit e = true -> Py.isdigit f = true ->
  match_directive df
    (String a (String b (String c (String d (String e (String f s))))))
  = [(String a (String b (String c (String d (String e (String f ""))))), s);
     (String a (String b (String c (String d (String e "")))), String f s);
     (String a (String b (String c (String d ""))), String e (String f s));
     (String a (String b (String c "")),
      String d (String e (String f s)));
     (String a (String b ""),
      String c (String d (String e (String f s))));
     (String a "",
      String b (String c (String d (String e (String f s)))))].
Proof.
  intros Ha Hb Hc Hd He Hf. unfold match_directive, directive_regex.
  cbn [omap list_omap match_alt]. rewrite Ha, Hb, Hc, Hd, He, Hf.
  reflexivity.
Qed.

Lemma match_items_four_digits y c its x rest :
  0 <= y <= 9999 ->
  match_items (Dir dY :: Lit c :: its) (four_digits y +:+ String x rest)
  = if lit_matches c x
    then map (fun '(groups, r) => ((dY, four_digits y) :: groups, r))
             (match_items its rest)
    else [].
Proof.
  intros Hy. rewrite match_items_Dir.
  change (four_digits y +:+ String x rest)
    with (String (digit (y / 1000))
            (String (digit (y / 100 mod 10))
               (String (digit (y mod 100 / 10))
                  (String (digit (y mod 100 mod 10)) (String x rest))))).
  rewrite match_directive_dY by (apply isdigit_digit; digit_bound).
  cbn [flat_map]. rewrite match_items_Lit, app_nil_r.
  destruct (lit_matches c x); reflexivity.
Qed.

Lemma match_items_six_digits n c x rest :
  0 <= n <= 999999 ->
  Py.isdigit c = false ->
  match_items [Dir df; Lit c] (six_digits n +:+ String x rest)
  = if lit_matches c x then [([(df, six_digits n)], rest)] else [].
Proof.
  intros Hn Hc. rewrite match_items_Dir.
  change (six_digits n +:+ String x rest)
    with (String (digit (n / 100000))
            (String (digit (n / 10000 mod 10))
               (String (digit (n mod 10000 / 1000))
                  (String (digit (n mod 10000 / 100 mod 10))
                     (String (digit (n mod 10000 mod 100 / 10))
                        (String (digit (n mod 10000 mod 100 mod 10))
                           (String x rest))))))).
  rewrite match_directive_df by (apply isdigit_digit; digit_bound).
  cbn [flat_map]. rewrite !match_items_Lit.
  rewrite !lit_matches_digit by (exact Hc || digit_bound).
  destruct (lit_matches c x); reflexivity.
Qed.

Lemma int_of_str_two_digits n :
  0 <= n <= 99 -> Py.int_of_str (two_digits n) = n.
Proof.
  intros Hn. unfold Py.int_of_str.
  rewrite strip_id by (apply isspace_digit; digit_bound).
  unfold two_digits. cbn [Py.int_of_digits].
  rewrite !ord_digit by digit_bound. digit_bound.
Qed.

Lemma int_of_str_four_digits n :
  0 <= n <= 9999 -> Py.int_of_str (four_digits n) = n.
Proof.
  intros Hn. unfold Py.int_of_str.
  rewrite strip_id by (apply isspace_digit; digit_bound).
  unfold four_digits, two_digits. cbn [Py.int_of_digits].
  rewrite !ord_digit by digit_bound. digit_bound.
Qed.

Lemma int_of_str_six_digits n :
  0 <= n <= 999999 -> Py.int_of_str (six_digits n) = n.
Proof.
  intros Hn. unfold Py.int_of_str.
  rewrite strip_id by (apply isspace_digit; digit_bound).
  unfold six_digits, four_digits, two_digits. cbn [Py.int_of_digits].
  rewrite !ord_digit by digit_bound. digit_bound.
Qed.

Lemma days_in_month_bounds y m : 28 <= days_in_month y m <= 31.
Proof.
  unfold days_in_month.
  repeat match goal with
         | |- context [if ?b then _ else _] => destruct b
         end; lia.
Qed.

Lemma match_items_iso dt c its x rest :
  valid dt -> Py.isdigit c = false ->
  match_items
    (Dir dY :: Lit "-" :: Dir dm :: Lit "-" :: Dir dd :: Lit "T"
       :: Dir dH :: Lit ":" :: Dir dM :: Lit ":" :: Dir dS :: Lit c :: its)
    (iso_seconds dt +:+ String x rest)
  = if lit_matches c x
    then map (fun '(groups, r) =>
                ((dY, four_digits (year dt)) :: (dm, two_digits (month dt))
                   :: (dd, two_digits (day dt)) :: (dH, two_digits (hour dt))
                   :: (dM, two_digits (minute dt))
                   :: (dS, two_digits (second dt)) :: groups, r))
             (match_items its rest)
    else [].
Proof.
  intros (Hy & Hm & Hd & HH & HM & HS & _) Hc.
  pose proof (days_in_month_bounds (year dt) (month dt)) as Hd'.
  change (iso_seconds dt +:+ String x rest)
    with (four_digits (year dt) +:+ String "-"
            (two_digits (month dt) +:+ String "-"
               (two_digits (day dt) +:+ String "T"
                  (two_digits (hour dt) +:+ String ":"
                     (two_digits (minute dt) +:+ String ":"
                        (two_digits (second dt) +:+ String x rest)))))).
  rewrite match_items_four_digits by lia.
  rewrite lit_matches_refl.
  rewrite (match_items_two_digits dm 1 12) by (simpl; tauto || lia).
  rewrite lit_matches_refl.
  rewrite (match_items_two_digits dd 1 31) by (simpl; tauto || lia).
  rewrite lit_matches_refl.
  rewrite (match_items_two_digits dH 0 23) by (simpl; tauto || lia).
  rewrite lit_matches_refl.
  rewrite (match_items_two_digits dM 0 59) by (simpl; tauto || lia).
  rewrite lit_matches_refl.
  rewrite (match_items_two_digits dS 0 59) by (simpl; tauto || lia || exact Hc).
  destruct (lit_matches c x); [|reflexivity].
  rewrite !map_map. apply map_ext. intros [groups r]. reflexivity.
Qed.

Lemma compile_format_micros :
  compile_format "%Y-%m-%dT%H:%M:%S.%fZ"
  = Some [Dir dY; Lit "-"; Dir dm; Lit "-"; Dir dd; Lit "T"; Dir dH; Lit ":";
          Dir dM; Lit ":"; Dir dS; Lit "."; Dir df; Lit "Z"].
Proof. vm_compute. reflexivity. Qed.

Lemma compile_format_seconds :
  compile_format "%Y-%m-%dT%H:%M:%SZ"
  = Some [Dir dY; Lit "-"; Dir dm; Lit "-"; Dir dd; Lit "T"; Dir dH; Lit ":";
          Dir dM; Lit ":"; Dir dS; Lit "Z"].
Proof. vm_compute. reflexivity. Qed.

Ltac in_range_tests :=
  repeat match goal with
         | |- context [?a <=? ?b] =>
             replace (a <=? b) with true by (symmetry; apply Z.leb_le; lia)
         end.

Lemma strptime_micros dt :
  valid dt -> strptime (rdap_micros dt) "%Y-%m-%dT%H:%M:%S.%fZ" = Some dt.
Proof.
  intros Hv. pose proof Hv as (Hy & Hm & Hd & HH & HM & HS & Hus).
  pose proof (days_in_month_bounds (year dt) (month dt)) as Hd'.
  unfold strptime. rewrite compile_format_micros.
  change (rdap_micros dt)
    with (iso_seconds dt +:+ String "." (six_digits (microsecond dt)
                                          +:+ String "Z" "")).
  rewrite (match_items_iso dt "." _ "." _ Hv eq_refl).
  rewrite lit_matches_refl.
  rewrite (match_items_six_digits _ "Z" "Z" "" Hus eq_refl).
  rewrite lit_matches_refl. cbn [map].
  unfold group_int, group_fraction. cbn [group directive_eqb].
  change (pad_zeros 6 (six_digits (microsecond dt)))
    with (six_digits (microsecond dt)).
  rewrite int_of_str_four_digits, !int_of_str_two_digits,
    int_of_str_six_digits by lia.
  cbv zeta. unfold MINYEAR, MAXYEAR. in_range_tests.
  destruct dt; reflexivity.
Qed.

Lemma strptime_seconds dt :
  valid dt ->
  strptime (rdap_seconds dt) "%Y-%m-%dT%H:%M:%SZ" = Some (whole_second dt).
Proof.
  intros Hv. pose proof Hv as (Hy & Hm & Hd & HH & HM & HS & Hus).
  pose proof (days_in_month_bounds (year dt) (month dt)) as Hd'.
  unfold strptime. rewrite compile_format_seconds.
  change (rdap_seconds dt) with (iso_seconds dt +:+ String "Z" "").
  rewrite (match_items_iso dt "Z" _ "Z" _ Hv eq_refl).
  rewrite lit_matches_refl. cbn [map match_items].
  unfold group_int, group_fraction. cbn [group directive_eqb].
  rewrite int_of_str_four_digits, !int_of_str_two_digits by lia.
  cbv zeta. unfold MINYEAR, MAXYEAR. in_range_tests.
  reflexivity.
Qed.

Lemma strptime_seconds_not_micros dt :
  valid dt -> strptime (rdap_seconds dt) "%Y-%m-%dT%H:%M:%S.%fZ" = None.
Proof.
  intros Hv. unfold strptime. rewrite compile_format_micros.
  change (rdap_seconds dt) with (iso_seconds dt +:+ String "Z" "").
  rewrite (match_items_iso dt "." _ "Z" _ Hv eq_refl).
  reflexivity.
Qed.

(** *** The seconds of a valid date lie within the range of [timestamp] *)

Lemma days_before_year_bounds y :
  2 <= y <= 9998 -> 365 <= days_before_year y <= 3651329.
Proof. unfold days_before_year. intros Hy. cbv zeta. digit_bound. Qed.

Lemma day_of_year_bounds y m d :
  1 <= m <= 12 -> 1 <= d <= days_in_month y m ->
  1 <= days_before_month y m + d <= 366.
Proof.
  intros Hm Hd.
  assert (Hc : m = 1 \/ m = 2 \/ m = 3 \/ m = 4 \/ m = 5 \/ m = 6 \/ m = 7
               \/ m = 8 \/ m = 9 \/ m = 10 \/ m = 11 \/ m = 12) by lia.
  unfold days_before_month.
  repeat (destruct Hc as [Hc|Hc]; [subst m; revert Hd; simpl;
    unfold days_in_month; generalize (is_leap y); intros b; simpl;
    destruct b; lia|]).
  subst m; revert Hd; simpl; unfold days_in_month; generalize (is_leap y);
    intros b; simpl; destruct b; lia.
Qed.

Lemma min_seconds_eq : min_seconds = 86400.
Proof. reflexivity. Qed.

Lemma max_seconds_eq : max_seconds = 3652059 * 86400 + 86399.
Proof. vm_compute. reflexivity. Qed.

Lemma utc_to_seconds_bounds dt :
  valid dt -> 2 <= year dt <= 9998 ->
  366 * 86400
  <= utc_to_seconds (year dt) (month dt) (day dt)
                    (hour dt) (minute dt) (second dt)
  <= 3651695 * 86400 + 86399.
Proof.
  intros (Hy & Hm & Hd & HH & HM & HS & _) Hy'.
  pose proof (days_before_year_bounds _ Hy').
  pose proof (day_of_year_bounds _ _ _ Hm Hd).
  unfold utc_to_seconds, ymd_to_ord. lia.
Qed.

Lemma timestamp_valid off dt :
  valid dt -> 2 <= year dt <= 9998 -> -86400 <= off <= 86400 ->
  timestamp (fixed_offset off) dt
  = Some (inject_Z (utc_epoch_second dt - off)
          + (microsecond dt # 1000000))%Q.
Proof.
  intros Hv Hy Hoff. pose proof (utc_to_seconds_bounds dt Hv Hy) as Ht.
  apply timestamp_fixed_offset; rewrite min_seconds_eq, max_seconds_eq;
    unfold max_fold_seconds; lia.
Qed.

Lemma int_of_float_micros z us :
  0 <= us <= 999999 ->
  Py.int_of_float (inject_Z z + (us # 1000000))
  = if (z <? 0) && (0 <? us) then z + 1 else z.
Proof.
  intros Hus. unfold Py.int_of_float. simpl.
  destruct (Z.ltb_spec z 0), (Z.ltb_spec 0 us); cbn [andb];
    Z.quot_rem_to_equations; lia.
Qed.

(** X10.  Every date from year 2 to year 9998, written with whole seconds, is
    read in the local zone: in a zone [off] seconds east of UTC the script
    takes it for the instant [off] seconds before the one the string
    denotes. *)
Theorem whole_second_timestamp e off dt w :
  localtime e = fixed_offset off ->
  valid dt -> 2 <= year dt <= 9998 -> -86400 <= off <= 86400 ->
  parse_rdap_date e (rdap_seconds dt) w
  = (Return (utc_epoch_second dt - off), w).
Proof.
  intros Htz Hv Hy Hoff. unfold parse_rdap_date. rewrite Htz.
  rewrite (strptime_seconds_not_micros dt Hv), (strptime_seconds dt Hv).
  cbn [mbind option_bind].
  assert (Hv' : valid (whole_second dt)).
  { destruct Hv as (? & ? & ? & ? & ? & ? & ?).
    repeat split; simpl; tauto || lia. }
  rewrite (timestamp_valid off (whole_second dt) Hv' Hy Hoff).
  change (microsecond (whole_second dt)) with 0.
  rewrite int_of_float_micros by lia.
  rewrite andb_false_r. reflexivity.
Qed.

Lemma whole_second_timestamp_witness :
  parse_rdap_date (unreachable (fixed_offset 19800) "")
                  (rdap_seconds (mkDatetime 2031 7 4 9 30 15 0)) quiet
  = (Return (utc_epoch_second (mkDatetime 2031 7 4 9 30 15 0) - 19800), quiet).
Proof.
  apply whole_second_timestamp; [reflexivity| |simpl; lia|lia].
  repeat split; vm_compute; discriminate.
Defined.

(** X11.  With a fraction of a second the first format applies, and [int] cuts
    the fraction toward zero: from 1970 on the fraction is dropped, before
    1970 a fraction that is not zero gives the following second.  The years
    are kept between 1500 and 2500, where a double-precision float still
    tells a microsecond before a whole second from that second, so that the
    exact sum taken here is cut as the float is. *)
Theorem fraction_is_cut_toward_zero e off dt w :
  localtime e = fixed_offset off ->
  valid dt -> 1500 <= year dt <= 2500 -> -86400 <= off <= 86400 ->
  let s := utc_epoch_second dt - off in
  parse_rdap_date e (rdap_micros dt) w
  = (Return (if (s <? 0) && (0 <? microsecond dt) then s + 1 else s), w).
Proof.
  intros Htz Hv Hy Hoff s. unfold parse_rdap_date. rewrite Htz.
  rewrite (strptime_micros dt Hv). cbn [mbind option_bind].
  rewrite (timestamp_valid off dt Hv) by lia. fold s.
  rewrite int_of_float_micros
    by (destruct Hv as (_ & _ & _ & _ & _ & _ & H); lia).
  reflexivity.
Qed.

Lemma fraction_is_cut_toward_zero_witness :
  let dt := mkDatetime 1969 12 31 23 59 59 250000 in
  let s := utc_epoch_second dt - 0 in
  parse_rdap_date (unreachable (fixed_offset 0) "") (rdap_micros dt) quiet
  = (Return (if (s <? 0) && (0 <? microsecond dt) then s + 1 else s), quiet).
Proof.
  apply fraction_is_cut_toward_zero; [reflexivity| |simpl; lia|lia].
  repeat split; vm_compute; discriminate.
Defined.

(** *** Strings that do not end in Z *)

Lemma match_alt_split a s t r : match_alt a s = Some (t, r) -> s = t +:+ r.
Proof.
  revert s t. induction a as [|cl a IH]; intros s t; simpl.
  - now intros [= <- <-].
  - destruct s as [|x s]; [discriminate|].
    destruct (cl x); [|discriminate].
    destruct (match_alt a s) as [[t' r']|] eqn:E; [|discriminate].
    intros [= <- <-]. change (String x s = String x (t' +:+ r')).
    f_equal. now apply IH.
Qed.

Lemma match_directive_split d s t r :
  In (t, r) (match_directive d s) -> s = t +:+ r.
Proof.
  unfold match_directive. induction (directive_regex d) as [|a l IH];
    simpl; [tauto|].
  destruct (match_alt a s) as [[t' r']|] eqn:E; [|exact IH].
  intros [[= <- <-]|H]; [now apply match_alt_split in E | now apply IH].
Qed.

Lemma last_char_cons c s x :
  last_char s = Some x -> last_char (String c s) = Some x.
Proof. destruct s; [discriminate | now intros <-]. Qed.

Lemma last_char_app t r x :
  last_char r = Some x -> last_char (t +:+ r) = Some x.
Proof.
  intros H. induction t as [|c t IH]; [exact H|].
  simpl append. now apply last_char_cons.
Qed.

Lemma match_items_last its c s groups :
  In (groups, "") (match_items (its ++ [Lit c])%list s) ->
  exists x, last_char s = Some x /\ lit_matches c x = true.
Proof.
  revert s groups. induction its as [|[c'|d] its IH]; intros s groups.
  - change (match_items ([] ++ [Lit c])%list s) with (match_items [Lit c] s).
    destruct s as [|x s]; [intros []|]. rewrite match_items_Lit.
    destruct (lit_matches c x) eqn:E; [|intros []].
    intros [[= _ ->]|[]]. now exists x.
  - change (match_items ((Lit c' :: its) ++ [Lit c])%list s)
      with (match_items (Lit c' :: (its ++ [Lit c])%list) s).
    destruct s as [|x s]; [intros []|]. rewrite match_items_Lit.
    destruct (lit_matches c' x); [|intros []].
    intros (x' & Hl & Hm)%IH. exists x'. split; [|exact Hm].
    now apply last_char_cons.
  - change (match_items ((Dir d :: its) ++ [Lit c])%list s)
      with (match_items (Dir d :: (its ++ [Lit c])%list) s).
    rewrite match_items_Dir.
    intros ([t r] & Hd & Hin)%in_flat_map.
    apply in_map_iff in Hin as ([g r'] & [= _ ->] & Hin).
    apply IH in Hin as (x & Hl & Hm).
    apply match_directive_split in Hd as ->.
    exists x. split; [|exact Hm]. now apply last_char_app.
Qed.

Lemma strptime_last data_string format its c dt :
  compile_format format = Some (its ++ [Lit c])%list ->
  strptime data_string format = Some dt ->
  exists x, last_char data_string = Some x /\ lit_matches c x = true.
Proof.
  unfold strptime. intros ->.
  destruct (match_items (its ++ [Lit c])%list data_string)
    as [|[groups [|? ?]] l] eqn:E; try discriminate.
  intros _. apply (match_items_last its c data_string groups).
  rewrite E. now left.
Qed.

Lemma lit_matches_Z x :
  lit_matches "Z" x = true -> x = "Z"%char \/ x = "z"%char.
Proof.
  unfold lit_matches, lower. change (Py.ord "Z") with 90. cbv zeta.
  change ((65 <=? 90) && (90 <=? 90)) with true. cbv iota.
  intros H%Z.eqb_eq.
  assert (Hx : Py.ord x = 90 \/ Py.ord x = 122).
  { destruct (Z.leb_spec 65 (Py.ord x)), (Z.leb_spec (Py.ord x) 90);
      cbn [andb] in H; lia. }
  unfold Py.ord in Hx. rewrite <- (ascii_N_embedding x).
  destruct Hx as [Hx|Hx]; [left|right];
    (replace (N_of_ascii x) with (Z.to_N (Z.of_N (N_of_ascii x)))
       by apply N2Z.id); rewrite Hx; reflexivity.
Qed.

(** X12.  A date string that does not end in Z or z (one with a numeric offset,
    or with no zone) is refused, whatever comes before: the run ends in
    state UNKNOWN with the string in its message. *)
Theorem timestamp_without_z_is_refused e date_str w :
  last_char date_str <> Some "Z"%char ->
  last_char date_str <> Some "z"%char ->
  parse_rdap_date e date_str w
  = (SystemExit 3,
     printed ("UNKNOWN - Invalid expiration date format: " +:+ date_str) w).
Proof.
  intros HZ Hz.
  assert (Hno : forall format its,
             compile_format format = Some (its ++ [Lit "Z"])%list ->
             strptime date_str format = None).
  { intros format its Hf.
    destruct (strptime date_str format) as [dt|] eqn:E; [|reflexivity].
    destruct (strptime_last _ _ _ _ _ Hf E) as (x & Hl & Hm).
    apply lit_matches_Z in Hm as [-> | ->]; congruence. }
  unfold parse_rdap_date.
  rewrite (Hno "%Y-%m-%dT%H:%M:%S.%fZ"
             [Dir dY; Lit "-"; Dir dm; Lit "-"; Dir dd; Lit "T"; Dir dH;
              Lit ":"; Dir dM; Lit ":"; Dir dS; Lit "."; Dir df]
             compile_format_micros).
  rewrite (Hno "%Y-%m-%dT%H:%M:%SZ"
             [Dir dY; Lit "-"; Dir dm; Lit "-"; Dir dd; Lit "T"; Dir dH;
              Lit ":"; Dir dM; Lit ":"; Dir dS]
             compile_format_seconds).
  reflexivity.
Qed.

Lemma timestamp_without_z_is_refused_witness :
  parse_rdap_date (unreachable UTC "") "2031-07-04T09:30:15+00:00" quiet
  = (SystemExit 3,
     printed ("UNKNOWN - Invalid expiration date format: "
              +:+ "2031-07-04T09:30:15+00:00") quiet).
Proof.
  apply timestamp_without_z_is_refused; simpl; discriminate.
Defined.

(** ** A whole run *)

(** X13.  A run that finds no usable cache entry and is answered with an
    expiration event dated in whole seconds.  When the cache file of the
    domain can be written: one request, the date saved, and the verdict on
    the days from the clock's reading after the save to the date as read in
    the local zone.  When the directory cannot be made or the file cannot
    be opened or written: one request, and an exit in state UNKNOWN with
    the text of that error. *)
Theorem run_on_service_answer e off args dt d post w :
  cache_miss (domain args) w ->
  service e (rdap_url (domain args)) = Json (PDict d) ->
  lookup_key "events" d
  = Some (PList (event "expiration" (rdap_seconds dt) :: post)) ->
  localtime e = fixed_offset off ->
  valid dt -> 2 <= year dt <= 9998 -> -86400 <= off <= 86400 ->
  let w1 := saved (domain args) (rdap_seconds dt)
              (fetched (rdap_url (domain args))
                       (consulted (domain args) w)) in
  let v := verdict args (rdap_seconds dt)
             (days_left (utc_epoch_second dt - off)
                        (Py.int_of_float (clock w1 O))) in
  (writable (domain args) (rdap_seconds dt) w ->
   main e args w = (SystemExit (fst v), printed (snd v) (ticked w1)))
  /\ (forall text,
        save_failure (domain args) (rdap_seconds dt) w = Some text ->
        fst (main e args w) = SystemExit 3
        /\ stdout (snd (main e args w))
           = stdout w +:+ "UNKNOWN - Error fetching RDAP data: " +:+ text
               +:+ newline
        /\ requested (snd (main e args w))
           = rdap_url (domain args) :: requested w).
Proof.
  intros Hmiss Hs Hl Htz Hv Hy Hoff w1 v.
  set (w0 := fetched (rdap_url (domain args)) (consulted (domain args) w)).
  assert (Hfiles : files w0 = files w) by apply files_consulted.
  assert (Hout : stdout w0 = stdout w
                 /\ requested w0 = rdap_url (domain args) :: requested w).
  { unfold w0, consulted. now destruct (cache_node (domain args) w). }
  rewrite main_unfold.
  rewrite (get_domain_expiration_miss e (domain args) w Hmiss).
  rewrite (query_rdap_events e (domain args) _ d _ Hs Hl). fold w0.
  unfold try_except.
  assert (Hne : rdap_seconds dt <> "") by discriminate.
  rewrite (scan_events_dated (domain args)
             (event "expiration" (rdap_seconds dt)) post (rdap_seconds dt) w0
             eq_refl eq_refl Hne).
  split.
  - intros Hw.
    rewrite <- (writable_files (domain args) _ w w0 Hfiles) in Hw.
    rewrite (save_to_cache_str (domain args) _ w0 Hw). cbv beta iota.
    change (saved (domain args) (rdap_seconds dt) w0) with w1.
    assert (Hp : parse_rdap_date e (rdap_seconds dt) w1
                 = (Return (utc_epoch_second dt - off), w1)).
    { unfold parse_rdap_date. rewrite Htz.
      rewrite (strptime_seconds_not_micros dt Hv), (strptime_seconds dt Hv).
      cbn [mbind option_bind].
      assert (Hv' : valid (whole_second dt)).
      { destruct Hv as (? & ? & ? & ? & ? & ? & ?).
        repeat split; simpl; tauto || lia. }
      rewrite (timestamp_valid off (whole_second dt) Hv' Hy Hoff).
      change (microsecond (whole_second dt)) with 0.
      rewrite int_of_float_micros by lia.
      rewrite andb_false_r. reflexivity. }
    rewrite Hp. reflexivity.
  - intros text Hf.
    rewrite <- (save_failure_files (domain args) _ w w0 Hfiles) in Hf.
    destruct (save_to_cache_stopped (domain args) _ w0 text Hf)
      as (Hr & Hreq & Hstd).
    destruct (save_to_cache (domain args) (PStr (rdap_seconds dt)) w0)
      as [r w2].
    cbn [fst snd] in Hr, Hreq, Hstd. subst r.
    rewrite die_eq. cbn [fst snd printed stdout requested].
    destruct Hout as [Ho1 Ho2].
    now rewrite Hstd, Hreq, Ho1, Ho2.
Qed.

Lemma run_on_service_answer_witness :
  let dt := mkDatetime 2025 3 1 0 0 0 0 in
  let e := answering (fixed_offset 3600)
             [event "expiration" (rdap_seconds dt)] in
  fst (main e (mkArgs "example.com" 30 10) quiet) = SystemExit STATE_CRITICAL
  /\ fst (main e (mkArgs "a/example.com" 30 10) quiet) = SystemExit 3.
Proof.
  intros dt e. split.
  - rewrite (proj1 (run_on_service_answer e 3600
                      (mkArgs "example.com" 30 10) dt
                      [("events", PList [event "expiration" (rdap_seconds dt)])]
                      [] quiet I eq_refl eq_refl eq_refl
                      ltac:(repeat split; vm_compute; discriminate)
                      ltac:(simpl; lia) ltac:(lia))
               ltac:(vm_compute; reflexivity)).
    vm_compute. reflexivity.
  - apply (proj2 (run_on_service_answer e 3600
                    (mkArgs "a/example.com" 30 10) dt
                    [("events", PList [event "expiration" (rdap_seconds dt)])]
                    [] quiet I eq_refl eq_refl eq_refl
                    ltac:(repeat split; vm_compute; discriminate)
                    ltac:(simpl; lia) ltac:(lia))
             ("[Errno 2] No such file or directory: "
                +:+ "'/tmp/check_domain_cache/a/example.com.cache'")).
    vm_compute. reflexivity.
Defined.

(** X14.  When the request fails, or its body is not JSON, the run leaves every
    file as it was: a stale or blank cache entry is neither removed nor
    rewritten. *)
Theorem failed_lookup_keeps_files e args w text :
  service e (rdap_url (domain args)) = RequestFails text
  \/ service e (rdap_url (domain args)) = BodyNotJson text ->
  files (snd (main e args w)) = files w.
Proof.
  intros Hs. destruct (main_after_lookup e args w) as [-> _].
  rewrite get_domain_expiration_unfold.
  rewrite !(query_rdap_fails e (domain args) _ text Hs).
  destruct (cache_node (domain args) w) as [[f|changed error]|];
    [| |reflexivity]; cbn [node_mtime].
  - destruct (Py.float_lt _ _); [|reflexivity].
    cbv zeta. destruct (Py.is_empty _); reflexivity.
  - destruct (Py.float_lt _ _); reflexivity.
Qed.

Lemma failed_lookup_keeps_files_witness :
  let w := with_cache "example.com" "2026-01-01T00:00:00Z" 1739000000 quiet in
  files (snd (main (unreachable UTC "timed out")
                   (mkArgs "example.com" 30 10) w))
  = files w.
Proof.
  intros w.
  apply (failed_lookup_keeps_files _ _ _ "timed out"). left. reflexivity.
Defined.
